(** * Corporate-Pay: the bracket-balance debug script

    A shallow embedding of [src/pages/generated/debug_script.py]: the comment
    and string remover [remove_comments_and_strings] and the stack-based
    delimiter matcher [check_balance], followed by the properties the
    specification states about them.

    Conventions of the embedding.
    - A Python [str] is a [list ascii], one [ascii] per character of the
      string; a one-character string such as the loop variable [char] is an
      [ascii].
    - Python integers that can only be indices produced by [enumerate] are
      [nat]; the index [i] of the remover, which is read as [text[i-1]], is a
      [Z] and indexing follows Python (a negative index counts from the end).
    - An operation that can raise ([text[k]], [stack.pop()], [pairs[char]])
      returns [option]; [None] is the raised exception. *)

From Stdlib Require Import List Ascii String ZArith Lia Bool Arith.
From Stdlib Require Import DecimalString DecimalNat Sorted.
Import ListNotations.

(** ** Python primitives used by the script *)

Module Py.

Definition str := list ascii.

(** A literal of the script. *)
Definition lit (s : string) : str := list_ascii_of_string s.

Definition newline : ascii := "010"%char.
Definition space : ascii := " "%char.
Definition dquote : ascii := "034"%char.
Definition squote : ascii := "039"%char.
Definition backquote : ascii := "096"%char.
Definition backslash : ascii := "092"%char.
Definition slash : ascii := "/"%char.
Definition star : ascii := "*"%char.

(** [char in s] for a one-character [char]. *)
Definition contains (s : str) (char : ascii) : bool :=
  existsb (Ascii.eqb char) s.

(** [s.count(c)] for a one-character [c]. *)
Definition count (c : ascii) (s : str) : nat :=
  List.length (filter (Ascii.eqb c) s).

(** [s[k]]: a negative [k] counts from the end; [None] is [IndexError]. *)
Definition getitem (s : str) (k : Z) : option ascii :=
  let n := Z.of_nat (List.length s) in
  if (0 <=? k)%Z then nth_error s (Z.to_nat k)
  else if (- n <=? k)%Z then nth_error s (Z.to_nat (n + k))
  else None.

(** [l[-1]] of a list; [None] is [IndexError]. *)
Fixpoint last {A} (l : list A) : option A :=
  match l with
  | [] => None
  | [x] => Some x
  | _ :: t => last t
  end.

(** [l.pop()]: the last element and the list without it. *)
Definition pop {A} (l : list A) : option (A * list A) :=
  match last l with
  | Some x => Some (x, removelast l)
  | None => None
  end.

(** [d[k]] of a dict given as its items; [None] is [KeyError]. *)
Fixpoint dict_get (d : list (ascii * ascii)) (k : ascii) : option ascii :=
  match d with
  | [] => None
  | (k', v) :: d' => if Ascii.eqb k k' then Some v else dict_get d' k
  end.

(** [not l] of a list. *)
Definition is_empty {A} (l : list A) : bool :=
  match l with [] => true | _ => false end.

(** [str(n)] of a non-negative integer. *)
Definition str_of_nat (n : nat) : str :=
  lit (NilEmpty.string_of_uint (Nat.to_uint n)).

End Py.

Notation "x <- e ;; k" :=
  (match e with Some x => k | None => None end)
  (at level 61, e at next level, right associativity).

(** ** The matcher: [check_balance] *)

(** [pairs = {')': '(', '}': '{', ']': '[', '>': '<'}] *)
Definition pairs : list (ascii * ascii) :=
  [ (")"%char, "("%char); ("}"%char, "{"%char);
    ("]"%char, "["%char); (">"%char, "<"%char) ].

(** An entry of the local [stack]: the tuple [(char, i)]. *)
Definition Frame : Type := ascii * nat.

(** What [check_balance] returns.  The script formats each of these into a
    message (see [render]); the fields are exactly the values interpolated. *)
Inductive Diagnostic : Type :=
| Balanced
| UnmatchedClosing (character : ascii) (line : nat) (index : nat)
| MismatchedClosing (character : ascii) (line : nat)
                    (expectedOpener : ascii) (openerIndex : nat)
| UnclosedOpening (character : ascii) (line : nat).

(** The f-strings of [check_balance]. *)
Definition render (d : Diagnostic) : Py.str :=
  match d with
  | Balanced => Py.lit "Balanced"
  | UnmatchedClosing c line_no i =>
      Py.lit "Unmatched closing '" ++ [c] ++ Py.lit "' at line "
        ++ Py.str_of_nat line_no ++ Py.lit ", char " ++ Py.str_of_nat i
  | MismatchedClosing c line_no last_open idx =>
      Py.lit "Mismatched closing '" ++ [c] ++ Py.lit "' at line "
        ++ Py.str_of_nat line_no ++ Py.lit " (opened by '" ++ [last_open]
        ++ Py.lit "' at index " ++ Py.str_of_nat idx ++ Py.lit ")"
  | UnclosedOpening last_open line_no =>
      Py.lit "Unclosed '" ++ [last_open] ++ Py.lit "' at line "
        ++ Py.str_of_nat line_no
  end.

(** [text[:i].count('\n') + 1] *)
Definition line_no (text : Py.str) (i : nat) : nat :=
  Py.count Py.newline (firstn i text) + 1.

(** The characters tested by [char in '({['] and [char in ')}]']. *)
Definition openers : Py.str := Py.lit "({[".
Definition closers : Py.str := Py.lit ")}]".

(** How one iteration of the [for] loop ends: with a [return], or by going on
    to the next character with the stack it leaves. *)
Inductive flow : Type :=
| Return (d : Diagnostic)
| Next (stack : list Frame).

(** The body of [for i, char in enumerate(text)]. *)
Definition body (text : Py.str) (i : nat) (char : ascii) (stack : list Frame)
  : option flow :=
  if Py.contains openers char then
    Some (Next (stack ++ [(char, i)]))
  else if Py.contains closers char then
    if Py.is_empty stack then
      Some (Return (UnmatchedClosing char (line_no text i) i))
    else
      popped <- Py.pop stack ;;
      let '((last_open, idx), stack') := popped in
      expected <- Py.dict_get pairs char ;;
      if negb (Ascii.eqb expected last_open) then
        Some (Return (MismatchedClosing char (line_no text i) last_open idx))
      else
        Some (Next stack')
  else
    Some (Next stack).

(** The [for] loop over the characters still to visit, [i] being the index of
    the first of them. *)
Fixpoint for_loop (text items : Py.str) (i : nat) (stack : list Frame)
  : option flow :=
  match items with
  | [] => Some (Next stack)
  | char :: rest =>
      match body text i char stack with
      | Some (Next stack') => for_loop text rest (S i) stack'
      | r => r
      end
  end.

(** [def check_balance(text)] *)
Definition check_balance (text : Py.str) : option Diagnostic :=
  r <- for_loop text text 0 [] ;;
  match r with
  | Return d => Some d
  | Next stack =>
      if negb (Py.is_empty stack) then
        top <- Py.last stack ;;
        let '(last_open, idx) := top in
        Some (UnclosedOpening last_open (line_no text idx))
      else
        Some Balanced
  end.

(** [print(check_balance(code))]: the script runs the matcher on the raw file
    contents; the call of the remover is commented out. *)
Definition report (code : Py.str) : option Py.str :=
  option_map render (check_balance code).

(** ** The script around the two functions *)

(** [l[start:]]: a negative [start] counts from the end, and is taken as 0
    when it reaches before the first element. *)
Definition slice_from {A} (l : list A) (start : Z) : list A :=
  let n := Z.of_nat (List.length l) in
  let first := if (start <? 0)%Z then Z.max 0 (n + start) else start in
  skipn (Z.to_nat first) l.

(** What the script prints, [lines] being the lines read from the file:
    the message of [check_balance] on the joined lines, a heading, and the
    last ten lines joined. *)
Definition script (lines : list Py.str) : option (list Py.str) :=
  let code := List.concat lines in
  message <- report code ;;
  Some [message; Py.lit "Last lines:";
        List.concat (slice_from lines (-10))].

(** ** The remover: [remove_comments_and_strings] *)

(** The local variables of the function while its loop runs.  [string_char]
    starts as the empty string, which equals no character: [None]. *)
Record State : Type := mkState {
  output : list Py.str;
  i : Z;
  in_string : bool;
  string_char : option ascii;
  in_comment : bool;
  in_block_comment : bool
}.

Definition initial : State :=
  {| output := []; i := 0; in_string := false; string_char := None;
     in_comment := false; in_block_comment := false |}.

(** The assignments of the loop body. *)
Definition append (chunk : Py.str) (s : State) : State :=
  mkState (output s ++ [chunk]) (i s) (in_string s) (string_char s)
          (in_comment s) (in_block_comment s).
Definition advance (s : State) : State :=
  mkState (output s) (i s + 1) (in_string s) (string_char s)
          (in_comment s) (in_block_comment s).
Definition set_in_string (b : bool) (s : State) : State :=
  mkState (output s) (i s) b (string_char s)
          (in_comment s) (in_block_comment s).
Definition set_string_char (c : ascii) (s : State) : State :=
  mkState (output s) (i s) (in_string s) (Some c)
          (in_comment s) (in_block_comment s).
Definition set_in_comment (b : bool) (s : State) : State :=
  mkState (output s) (i s) (in_string s) (string_char s)
          b (in_block_comment s).
Definition set_in_block_comment (b : bool) (s : State) : State :=
  mkState (output s) (i s) (in_string s) (string_char s)
          (in_comment s) b.

(** [char == string_char] *)
Definition is_string_char (s : State) (char : ascii) : bool :=
  match string_char s with
  | Some q => Ascii.eqb char q
  | None => false
  end.

(** [i+1 < length and text[i+1] == c]: the right operand is evaluated only
    when the left one holds. *)
Definition next_is (text : Py.str) (s : State) (c : ascii) : option bool :=
  if (i s + 1 <? Z.of_nat (List.length text))%Z then
    next <- Py.getitem text (i s + 1) ;;
    Some (Ascii.eqb next c)
  else Some false.

(** The body of [while i < length], the final [i += 1] included. *)
Definition loop_body (text : Py.str) (s : State) : option State :=
  char <- Py.getitem text (i s) ;;
  s' <-
    (if in_string s then
       s1 <-
         (if is_string_char s char then
            prev <- Py.getitem text (i s - 1) ;;
            if negb (Ascii.eqb prev Py.backslash)
            then Some (set_in_string false s)
            else Some s
          else Some s) ;;
       Some (append [Py.space] s1)
     else if in_comment s then
       if Ascii.eqb char Py.newline
       then Some (append [char] (set_in_comment false s))
       else Some (append [Py.space] s)
     else if in_block_comment s then
       closes <-
         (if Ascii.eqb char Py.star then next_is text s Py.slash
          else Some false) ;;
       if closes
       then Some (append [Py.space; Py.space]
                    (advance (set_in_block_comment false s)))
       else Some (append [Py.space] s)
     else
       if Ascii.eqb char Py.dquote || Ascii.eqb char Py.squote
          || Ascii.eqb char Py.backquote
       then Some (append [Py.space]
                    (set_string_char char (set_in_string true s)))
       else
         line <-
           (if Ascii.eqb char Py.slash then next_is text s Py.slash
            else Some false) ;;
         if line
         then Some (append [Py.space; Py.space]
                      (advance (set_in_comment true s)))
         else
           block <-
             (if Ascii.eqb char Py.slash then next_is text s Py.star
              else Some false) ;;
           if block
           then Some (append [Py.space; Py.space]
                        (advance (set_in_block_comment true s)))
           else Some (append [char] s)) ;;
  Some (advance s').

(** [while i < length: ...].  Each iteration spends one unit of [fuel];
    [None] is a raised exception or an exhausted [fuel]. *)
Fixpoint while_loop (fuel : nat) (text : Py.str) (s : State) : option State :=
  if (i s <? Z.of_nat (List.length text))%Z then
    match fuel with
    | O => None
    | S fuel' => s' <- loop_body text s ;; while_loop fuel' text s'
    end
  else Some s.

(** [def remove_comments_and_strings(text)].  The loop advances [i] by at
    least one each time round, so [len(text)] iterations are enough
    (see [remove_comments_and_strings_total]). *)
Definition remove_comments_and_strings (text : Py.str) : option Py.str :=
  s <- while_loop (List.length text) text initial ;;
  Some (List.concat (output s)).

(** The state in which the [n]-th iteration of the loop starts ([n] counted
    from 0), when the loop gets that far. *)
Fixpoint state_at (text : Py.str) (n : nat) : option State :=
  match n with
  | O => if (i initial <? Z.of_nat (List.length text))%Z
         then Some initial else None
  | S n' =>
      s <- state_at text n' ;;
      s' <- loop_body text s ;;
      if (i s' <? Z.of_nat (List.length text))%Z then Some s' else None
  end.

(** ** Example inputs *)

Module Examples.

(** [{ // }\n}]: scenario 4 of the specification. *)
Definition comment_line : Py.str :=
  Py.lit "{ // }" ++ [Py.newline] ++ Py.lit "}".

(** [(\n{]: two openers on two lines, neither closed. *)
Definition two_open : Py.str :=
  Py.lit "(" ++ [Py.newline] ++ Py.lit "{".

(** [/*\n*/]: a block comment over two lines. *)
Definition block_two_lines : Py.str :=
  Py.lit "/*" ++ [Py.newline] ++ Py.lit "*/".

(** A back-quoted template string over two lines: back quote, [a],
    newline, [b], back quote. *)
Definition template_two_lines : Py.str :=
  [Py.backquote] ++ Py.lit "a" ++ [Py.newline] ++ Py.lit "b"
    ++ [Py.backquote].

(** A double-quoted string holding [a], an escaped double quote and [b]. *)
Definition escaped_quote : Py.str :=
  [Py.dquote] ++ Py.lit "a" ++ [Py.backslash; Py.dquote] ++ Py.lit "b"
    ++ [Py.dquote].

End Examples.

(** ** Notions the properties are stated with *)

(** Every frame of [stack] records an opener of [text] at a position before
    [n], and a frame nearer the end of the list was opened later. *)
Definition stack_inv (text : Py.str) (n : nat) (stack : list Frame) : Prop :=
  StronglySorted (fun later earlier => snd earlier < snd later) (rev stack)
  /\ forall f, In f stack ->
       snd f < n /\ nth_error text (snd f) = Some (fst f)
       /\ Py.contains openers (fst f) = true.

(** The characters the matcher reacts to. *)
Definition is_delimiter (c : ascii) : bool :=
  Py.contains openers c || Py.contains closers c.

(** The openers left on the stack when the loop ends without returning. *)
Definition open_chars (r : option flow) : option (list ascii) :=
  match r with
  | Some (Next stack) => Some (map fst stack)
  | _ => None
  end.

(** String mode was entered by a quote: [string_char] is one of the three
    quote characters and stands in the text at an index smaller than [i]. *)
Definition opened_by_quote (text : Py.str) (s : State) : Prop :=
  exists (q : ascii) (j : Z),
    string_char s = Some q
    /\ In q [Py.dquote; Py.squote; Py.backquote]
    /\ (0 <= j < i s)%Z
    /\ nth_error text (Z.to_nat j) = Some q.

(** What holds of the remover's state each time the loop condition is
    tested: [i] is within the text, and string mode holds only after the
    quote that opened it was consumed. *)
Definition reach_inv (text : Py.str) (s : State) : Prop :=
  (0 <= i s <= Z.of_nat (List.length text))%Z
  /\ (in_string s = true -> opened_by_quote text s).

(** The classification the specification speaks of.  The remover keeps no
    tags; they are read off its flags: a character consumed while a string
    or comment flag is set carries that flag's tag, and a character consumed
    in code carries the tag of the mode it opens (a quote, [//] or [/*]) or
    [Code] when it is passed through. *)
Inductive Tag : Type := Code | StringLiteral | LineComment | BlockComment.

Definition mode (s : State) : Tag :=
  if in_string s then StringLiteral
  else if in_comment s then LineComment
  else if in_block_comment s then BlockComment
  else Code.

Definition tag_of_step (s s' : State) : Tag :=
  match mode s with
  | Code => mode s'
  | m => m
  end.

(** The tags of the characters from [i] on, one per character, gathered
    along the iterations of the remover's loop. *)
Fixpoint classify_loop (fuel : nat) (text : Py.str) (s : State)
  : option (list Tag) :=
  if (i s <? Z.of_nat (List.length text))%Z then
    match fuel with
    | O => None
    | S fuel' =>
        s' <- loop_body text s ;;
        tags <- classify_loop fuel' text s' ;;
        Some (repeat (tag_of_step s s') (Z.to_nat (i s' - i s)) ++ tags)
    end
  else Some [].

Definition classify (text : Py.str) : option (list Tag) :=
  classify_loop (List.length text) text initial.

(** What a character becomes under its tag: code is kept; in a line comment
    only the newline that ends it is kept; anything else is a space. *)
Definition mask_char (t : Tag) (c : ascii) : ascii :=
  match t with
  | Code => c
  | LineComment => if Ascii.eqb c Py.newline then c else Py.space
  | StringLiteral | BlockComment => Py.space
  end.

Fixpoint mask (tags : list Tag) (text : Py.str) : Py.str :=
  match tags, text with
  | t :: tags', c :: text' => mask_char t c :: mask tags' text'
  | _, _ => []
  end.


(** The line a diagnostic reports, when it reports one. *)
Definition reported_line (d : Diagnostic) : option nat :=
  match d with
  | Balanced => None
  | UnmatchedClosing _ line _ => Some line
  | MismatchedClosing _ line _ _ => Some line
  | UnclosedOpening _ line => Some line
  end.

(** The two diagnostics returned from inside the loop. *)
Definition is_closing_failure (d : Diagnostic) : bool :=
  match d with
  | UnmatchedClosing _ _ _ | MismatchedClosing _ _ _ _ => true
  | Balanced | UnclosedOpening _ _ => false
  end.

(** The three bracket pairs the matcher works with, closer first. *)
Definition bracket_pairs : list (ascii * ascii) :=
  [(")"%char, "("%char); ("}"%char, "{"%char); ("]"%char, "["%char)].

(** Well-nested texts: brackets come in matching pairs that nest, other
    characters may stand anywhere. *)
Inductive well_nested : Py.str -> Prop :=
| wn_empty : well_nested []
| wn_other (x : ascii) (t : Py.str) :
    is_delimiter x = false -> well_nested t -> well_nested (x :: t)
| wn_pair (c o : ascii) (a b : Py.str) :
    In (c, o) bracket_pairs -> well_nested a -> well_nested b ->
    well_nested (o :: a ++ c :: b).

(** [closes_rev opens_rev items]: [items] closes the openers [opens_rev],
    given innermost first, in that order, with well-nested texts in between
    and after. *)
Fixpoint closes_rev (opens_rev : list ascii) (items : Py.str) : Prop :=
  match opens_rev with
  | [] => well_nested items
  | o :: below =>
      exists a c rest,
        items = a ++ c :: rest
        /\ well_nested a /\ In (c, o) bracket_pairs /\ closes_rev below rest
  end.

(** The test that opens a string: [char] is a double quote, a single quote
    or a back quote. *)
Definition is_quote (c : ascii) : bool :=
  Ascii.eqb c Py.dquote || Ascii.eqb c Py.squote || Ascii.eqb c Py.backquote.

(** [c] followed by [next] opens a comment: [//] or [/*]. *)
Definition opens_comment (c : ascii) (next : option ascii) : bool :=
  Ascii.eqb c Py.slash
  && match next with
     | Some n => Ascii.eqb n Py.slash || Ascii.eqb n Py.star
     | None => false
     end.

(** Texts with no quote and no comment opener. *)
Fixpoint plain (text : Py.str) : bool :=
  match text with
  | [] => true
  | c :: rest =>
      negb (is_quote c) && negb (opens_comment c (hd_error rest))
      && plain rest
  end.

(** A character tagged [Code] is no quote and opens no comment. *)
Fixpoint code_ok (tags : list Tag) (text : Py.str) : Prop :=
  match tags, text with
  | t :: tags', c :: rest =>
      (t = Code ->
       is_quote c = false /\ opens_comment c (hd_error rest) = false)
      /\ code_ok tags' rest
  | _, _ => True
  end.

(** The characters [str] prints an integer with. *)
Definition is_digit (c : ascii) : bool :=
  Py.contains (Py.lit "0123456789") c.

(** The modes of the classifier of section 4.1 of the specification.  A
    string mode carries the delimiter that opened the string and the
    character read last. *)
Inductive SpecMode : Type :=
| SCode
| SString (delimiter prev : ascii)
| SLineComment
| SBlockComment.

(** The classifier as section 4.1 of the specification words it, by
    recursion on the text still to read.  It is written without the
    remover: no index, no flags, no loop. *)
Fixpoint spec_classify (m : SpecMode) (text : Py.str) : list Tag :=
  match text with
  | [] => []
  | c :: rest =>
      match m with
      | SString q prev =>
          StringLiteral ::
            spec_classify
              (if Ascii.eqb c q && negb (Ascii.eqb prev Py.backslash)
               then SCode else SString q c)
              rest
      | SLineComment =>
          LineComment ::
            spec_classify
              (if Ascii.eqb c Py.newline then SCode else SLineComment) rest
      | SBlockComment =>
          match rest with
          | c2 :: rest' =>
              if Ascii.eqb c Py.star && Ascii.eqb c2 Py.slash
              then BlockComment :: BlockComment :: spec_classify SCode rest'
              else BlockComment :: spec_classify SBlockComment rest
          | [] => [BlockComment]
          end
      | SCode =>
          if is_quote c then StringLiteral :: spec_classify (SString c c) rest
          else
            match rest with
            | c2 :: rest' =>
                if Ascii.eqb c Py.slash && Ascii.eqb c2 Py.slash
                then LineComment :: LineComment
                       :: spec_classify SLineComment rest'
                else if Ascii.eqb c Py.slash && Ascii.eqb c2 Py.star
                then BlockComment :: BlockComment
                       :: spec_classify SBlockComment rest'
                else Code :: spec_classify SCode rest
            | [] => [Code]
            end
      end
  end.






(** Closes the bookkeeping goals of one branch of the remover's loop body,
    [k] being the number of characters the branch consumes. *)
Ltac step_with k :=
  eexists; exists k; split; [reflexivity|]; simpl;
  unfold tag_of_step, mode; simpl.

(** * Lemmas *)

(** ** Lists used as stacks *)

Section PyLists.

Context {A : Type}.

Lemma last_snoc (l : list A) (x : A) : Py.last (l ++ [x]) = Some x.
Proof.
  induction l as [|y l IH]; [reflexivity|].
  simpl. rewrite IH. destruct (l ++ [x]) eqn:E; [|reflexivity].
  destruct l; discriminate.
Qed.

Lemma pop_snoc (l : list A) (x : A) : Py.pop (l ++ [x]) = Some (x, l).
Proof.
  unfold Py.pop. rewrite last_snoc, removelast_last. reflexivity.
Qed.

Lemma snoc_cases (l : list A) : l = [] \/ exists l' x, l = l' ++ [x].
Proof.
  destruct l as [|y l]; [now left|right].
  destruct (exists_last (l := y :: l)) as (l' & x & E); [discriminate|].
  now exists l', x.
Qed.

Lemma is_empty_snoc (l : list A) (x : A) : Py.is_empty (l ++ [x]) = false.
Proof. destruct l; reflexivity. Qed.

Lemma is_empty_true (l : list A) : Py.is_empty l = true <-> l = [].
Proof. destruct l; simpl; split; congruence. Qed.

End PyLists.

(** ** The matcher *)

Section Matcher.

(** [char in '({['] and [char in ')}]'], spelled out. *)
Lemma contains_openers (c : ascii) :
  Py.contains openers c = true <->
  c = "("%char \/ c = "{"%char \/ c = "["%char.
Proof.
  unfold Py.contains, openers; simpl.
  rewrite !orb_true_iff, !Ascii.eqb_eq. intuition congruence.
Qed.

Lemma contains_closers (c : ascii) :
  Py.contains closers c = true <->
  c = ")"%char \/ c = "}"%char \/ c = "]"%char.
Proof.
  unfold Py.contains, closers; simpl.
  rewrite !orb_true_iff, !Ascii.eqb_eq. intuition congruence.
Qed.

Lemma closers_not_openers (c : ascii) :
  Py.contains closers c = true -> Py.contains openers c = false.
Proof.
  intros H. apply contains_closers in H.
  destruct H as [-> | [-> | ->]]; reflexivity.
Qed.

(** [pairs[char]] never raises in the closing branch. *)
Lemma pairs_of_closer (c : ascii) :
  Py.contains closers c = true -> exists o, Py.dict_get pairs c = Some o.
Proof.
  intros H. apply contains_closers in H.
  destruct H as [-> | [-> | ->]]; eexists; reflexivity.
Qed.

Variable text : Py.str.

(** The three branches of the loop body. *)
Lemma body_opener i c stack :
  Py.contains openers c = true ->
  body text i c stack = Some (Next (stack ++ [(c, i)])).
Proof. intros H. unfold body. now rewrite H. Qed.

Lemma body_closer_empty i c :
  Py.contains closers c = true ->
  body text i c [] = Some (Return (UnmatchedClosing c (line_no text i) i)).
Proof.
  intros H. unfold body. now rewrite (closers_not_openers _ H), H.
Qed.

Lemma body_closer_pop i c stack last_open idx :
  Py.contains closers c = true ->
  body text i c (stack ++ [(last_open, idx)]) =
    if negb (match Py.dict_get pairs c with
             | Some expected => Ascii.eqb expected last_open
             | None => false
             end)
    then Some (Return (MismatchedClosing c (line_no text i) last_open idx))
    else Some (Next stack).
Proof.
  intros H. unfold body.
  rewrite (closers_not_openers _ H), H, is_empty_snoc, pop_snoc.
  destruct (pairs_of_closer _ H) as [o ->]. reflexivity.
Qed.

Lemma body_other i c stack :
  Py.contains openers c = false -> Py.contains closers c = false ->
  body text i c stack = Some (Next stack).
Proof. intros H1 H2. unfold body. now rewrite H1, H2. Qed.

(** No iteration raises. *)
Lemma body_total i c stack : exists r, body text i c stack = Some r.
Proof.
  destruct (Py.contains openers c) eqn:Ho.
  - rewrite body_opener by assumption. eauto.
  - destruct (Py.contains closers c) eqn:Hc.
    + destruct (snoc_cases stack) as [-> | (s & [o idx] & ->)].
      * rewrite body_closer_empty by assumption. eauto.
      * rewrite body_closer_pop by assumption.
        destruct (negb _); eauto.
    + rewrite body_other by assumption. eauto.
Qed.

Lemma for_loop_total items i stack :
  exists r, for_loop text items i stack = Some r.
Proof.
  revert i stack. induction items as [|c items IH]; intros i stack; simpl.
  - eauto.
  - destruct (body_total i c stack) as [[d | stack'] ->]; eauto.
Qed.

(** Scanning [pre ++ rest] is scanning [pre] and, when that did not
    return, going on with [rest]. *)
Lemma for_loop_app pre rest i stack :
  for_loop text (pre ++ rest) i stack =
    match for_loop text pre i stack with
    | Some (Next stack') => for_loop text rest (i + List.length pre) stack'
    | r => r
    end.
Proof.
  revert i stack. induction pre as [|c pre IH]; intros i stack; simpl.
  - now rewrite Nat.add_0_r.
  - destruct (body text i c stack) as [[d | stack'] |]; try reflexivity.
    rewrite IH. now rewrite Nat.add_succ_r.
Qed.

End Matcher.

Lemma check_balance_total (text : Py.str) :
exists d, check_balance text = Some d.
Proof.
unfold check_balance.
destruct (for_loop_total text text 0 []) as [[d | stack] ->]; [eauto|].
destruct (snoc_cases stack) as [-> | (s & [o idx] & ->)]; simpl; [eauto|].
rewrite is_empty_snoc, last_snoc. simpl. eauto.
Qed.

Lemma line_no_prefix (pre post : Py.str) :
line_no (pre ++ post) (List.length pre) = Py.count Py.newline pre + 1.
Proof.
unfold line_no. rewrite firstn_app, Nat.sub_diag, firstn_all. simpl.
now rewrite app_nil_r.
Qed.

(** ** The order of the stack

  Read from its first element to its last, the stack holds the openers
  that are still unclosed, in the order of their positions. *)

Section StackOrder.

Variable text : Py.str.

Lemma stack_inv_nil n : stack_inv text n [].
Proof. split; [constructor | intros f []]. Qed.

Lemma stack_inv_weaken n m stack :
  n <= m -> stack_inv text n stack -> stack_inv text m stack.
Proof.
  intros Hle [Hs Hf]. split; [assumption|].
  intros f Hin. destruct (Hf f Hin) as (? & ? & ?). repeat split; auto; lia.
Qed.

Lemma stack_inv_push n c stack :
  nth_error text n = Some c -> Py.contains openers c = true ->
  stack_inv text n stack -> stack_inv text (S n) (stack ++ [(c, n)]).
Proof.
  intros Hc Ho [Hs Hf]. split.
  - rewrite rev_app_distr. simpl. constructor; [assumption|].
    apply Forall_forall. intros f Hin. apply in_rev in Hin.
    simpl. now apply Hf.
  - intros f Hin. apply in_app_iff in Hin. destruct Hin as [Hin | [<- | []]].
    + destruct (Hf f Hin) as (? & ? & ?). repeat split; auto.
    + simpl. repeat split; auto.
Qed.

Lemma stack_inv_pop n f stack :
  stack_inv text n (stack ++ [f]) -> stack_inv text n stack.
Proof.
  intros [Hs Hf]. split.
  - rewrite rev_app_distr in Hs. simpl in Hs. now inversion Hs.
  - intros g Hin. apply Hf, in_app_iff. now left.
Qed.

Lemma stack_inv_top n f stack :
  stack_inv text n (stack ++ [f]) ->
  forall g, In g (stack ++ [f]) -> snd g <= snd f.
Proof.
  intros [Hs _] g Hin. rewrite rev_app_distr in Hs. simpl in Hs.
  inversion Hs as [|? ? _ Hall]; subst.
  apply in_app_iff in Hin. destruct Hin as [Hin | [<- | []]]; [|lia].
  rewrite Forall_forall in Hall. apply in_rev in Hin.
  specialize (Hall g Hin). lia.
Qed.

Lemma body_inv pre c rest stack stack' :
  text = pre ++ c :: rest ->
  stack_inv text (List.length pre) stack ->
  body text (List.length pre) c stack = Some (Next stack') ->
  stack_inv text (S (List.length pre)) stack'.
Proof.
  intros Ht Hinv Hb.
  assert (Hnth : nth_error text (List.length pre) = Some c).
  { rewrite Ht, nth_error_app2, Nat.sub_diag by lia. reflexivity. }
  destruct (Py.contains openers c) eqn:Ho.
  - rewrite body_opener in Hb by assumption. injection Hb as <-.
    now apply stack_inv_push.
  - destruct (Py.contains closers c) eqn:Hc.
    + destruct (snoc_cases stack) as [-> | (s & [o idx] & ->)].
      * rewrite body_closer_empty in Hb by assumption. discriminate.
      * rewrite body_closer_pop in Hb by assumption.
        destruct (negb _); [discriminate|]. injection Hb as <-.
        apply stack_inv_weaken with (n := List.length pre); [lia|].
        eapply stack_inv_pop; eassumption.
    + rewrite body_other in Hb by assumption. injection Hb as <-.
      apply stack_inv_weaken with (n := List.length pre); [lia|assumption].
Qed.

Lemma for_loop_inv items : forall pre stack stack',
  text = pre ++ items ->
  stack_inv text (List.length pre) stack ->
  for_loop text items (List.length pre) stack = Some (Next stack') ->
  stack_inv text (List.length text) stack'.
Proof.
  induction items as [|c items IH]; intros pre stack stack' Ht Hinv Hrun.
  - simpl in Hrun. injection Hrun as <-.
    rewrite app_nil_r in Ht. subst pre. assumption.
  - simpl in Hrun.
    destruct (body text (List.length pre) c stack) as [[d | s1] |] eqn:Hb;
      try discriminate.
    apply (IH (pre ++ [c]) s1 stack').
    + rewrite <- app_assoc. assumption.
    + rewrite length_app, Nat.add_1_r.
      eapply body_inv; eassumption.
    + rewrite length_app, Nat.add_1_r. assumption.
Qed.

Lemma final_stack_inv stack :
  for_loop text text 0 [] = Some (Next stack) ->
  stack_inv text (List.length text) stack.
Proof.
  intros H. apply (for_loop_inv text [] [] stack); auto using stack_inv_nil.
Qed.

End StackOrder.

(** ** The remover, one iteration at a time *)

Section Indexing.

Variable text : Py.str.
Local Abbreviation len := (Z.of_nat (List.length text)).

Lemma getitem_nat (k : Z) :
  (0 <= k)%Z -> Py.getitem text k = nth_error text (Z.to_nat k).
Proof.
  intros H. unfold Py.getitem.
  destruct (0 <=? k)%Z eqn:E; [reflexivity|]. lia.
Qed.

Lemma getitem_in_range (k : Z) :
  (0 <= k < len)%Z -> exists c, nth_error text (Z.to_nat k) = Some c.
Proof.
  intros H. destruct (nth_error text (Z.to_nat k)) eqn:E; [eauto|].
  apply nth_error_None in E. lia.
Qed.

(** The lookbehind [text[i-1]] always yields a character (at [i = 0] it
    would be the last one of the text). *)
Lemma getitem_prev_total (k : Z) :
  (0 <= k < len)%Z -> exists c, Py.getitem text (k - 1) = Some c.
Proof.
  intros H. unfold Py.getitem.
  destruct (0 <=? k - 1)%Z eqn:E.
  - apply getitem_in_range. lia.
  - destruct (- len <=? k - 1)%Z eqn:E'; [|lia].
    apply getitem_in_range. lia.
Qed.

Lemma next_is_spec (s : State) (c : ascii) :
  (0 <= i s)%Z ->
  exists b, next_is text s c = Some b
    /\ (b = true ->
        (i s + 1 < len)%Z
        /\ nth_error text (S (Z.to_nat (i s))) = Some c).
Proof.
  intros H. unfold next_is.
  destruct (i s + 1 <? len)%Z eqn:E.
  - rewrite getitem_nat by lia.
    destruct (getitem_in_range (i s + 1)) as [x Hx]; [lia|].
    rewrite Hx. eexists. split; [reflexivity|].
    intros Hb. apply Ascii.eqb_eq in Hb. subst x.
    split; [lia|]. rewrite <- Hx. f_equal. lia.
  - exists false. split; [reflexivity | discriminate].
Qed.

Lemma skipn_nth_error (n : nat) (c : ascii) :
  nth_error text n = Some c -> skipn n text = c :: skipn (S n) text.
Proof.
  revert n. induction text as [|x l IH]; intros [|n] H;
    simpl in *; try discriminate.
  - now injection H as ->.
  - now apply IH.
Qed.

End Indexing.

(** One iteration, from a state satisfying the loop condition: it does not
    raise, consumes one or two characters, and appends their mask. *)
Lemma loop_body_spec (text : Py.str) (s : State) :
  reach_inv text s ->
  (i s < Z.of_nat (List.length text))%Z ->
  exists s' k,
    loop_body text s = Some s'
    /\ (k = 1 \/ k = 2)
    /\ i s' = (i s + Z.of_nat k)%Z
    /\ (i s' <= Z.of_nat (List.length text))%Z
    /\ output s' =
         output s ++ [mask (repeat (tag_of_step s s') k)
                           (firstn k (skipn (Z.to_nat (i s)) text))]
    /\ (in_string s' = true -> opened_by_quote text s').
Proof.
  intros [Hi0 Hstr] Hlt.
  assert (Hi : (0 <= i s < Z.of_nat (List.length text))%Z) by lia.
  destruct (getitem_in_range text (i s) Hi) as [char Hchar].
  pose proof (skipn_nth_error text _ _ Hchar) as Hskip.
  unfold loop_body. rewrite getitem_nat, Hchar by lia.
  destruct (in_string s) eqn:Es.
  - destruct (getitem_prev_total text (i s) Hi) as [prev ->].
    destruct Hstr as (q & j & Hq & Hquote & Hj & Hnth); [reflexivity|].
    destruct (is_string_char s char) eqn:Eq;
      [destruct (negb (Ascii.eqb prev Py.backslash))|];
      step_with 1; rewrite ?Es, Hskip; simpl;
      repeat split; auto; try lia; try discriminate;
      intros _; exists q, j; simpl; repeat split; auto; lia.
  - clear Hstr. destruct (in_comment s) eqn:Ec.
    + destruct (Ascii.eqb char Py.newline) eqn:En;
        step_with 1; rewrite ?Es, ?Ec, Hskip; simpl; rewrite ?En;
        repeat split; auto; try lia; try congruence.
    + destruct (in_block_comment s) eqn:Eb.
      * destruct (next_is_spec text s Py.slash) as (b & Hb & Hnext); [lia|].
        destruct (Ascii.eqb char Py.star) eqn:Estar.
        -- rewrite Hb. destruct b.
           ++ destruct Hnext as [Hlt2 Hn2]; [reflexivity|].
              rewrite (skipn_nth_error text _ _ Hn2) in Hskip.
              step_with 2; rewrite ?Es, ?Ec, ?Eb, Hskip; simpl;
                repeat split; auto; try lia; try congruence.
           ++ step_with 1; rewrite ?Es, ?Ec, ?Eb, Hskip; simpl;
                repeat split; auto; try lia; try congruence.
        -- step_with 1; rewrite ?Es, ?Ec, ?Eb, Hskip; simpl;
             repeat split; auto; try lia; try congruence.
      * destruct (Ascii.eqb char Py.dquote || Ascii.eqb char Py.squote
                  || Ascii.eqb char Py.backquote) eqn:Equote.
        -- step_with 1; rewrite ?Es, ?Ec, ?Eb, Hskip; simpl;
             repeat split; auto; try lia; try congruence.
           intros _. exists char, (i s). simpl.
           repeat split; auto; try lia.
           rewrite !orb_true_iff, !Ascii.eqb_eq in Equote.
           simpl. intuition auto.
        -- destruct (next_is_spec text s Py.slash) as (b1 & Hb1 & Hn1); [lia|].
           destruct (next_is_spec text s Py.star) as (b2 & Hb2 & Hn2); [lia|].
           destruct (Ascii.eqb char Py.slash) eqn:Eslash.
           ++ apply Ascii.eqb_eq in Eslash. subst char.
              rewrite Hb1. destruct b1.
              ** destruct Hn1 as [Hlt2 Hn]; [reflexivity|].
                 rewrite (skipn_nth_error text _ _ Hn) in Hskip.
                 step_with 2; rewrite ?Es, ?Ec, ?Eb, Hskip; simpl;
                   repeat split; auto; try lia; try congruence.
              ** rewrite Hb2. destruct b2.
                 --- destruct Hn2 as [Hlt2 Hn]; [reflexivity|].
                     rewrite (skipn_nth_error text _ _ Hn) in Hskip.
                     step_with 2; rewrite ?Es, ?Ec, ?Eb, Hskip; simpl;
                       repeat split; auto; try lia; try congruence.
                 --- step_with 1; rewrite ?Es, ?Ec, ?Eb, Hskip; simpl;
                       repeat split; auto; try lia; try congruence.
           ++ step_with 1; rewrite ?Es, ?Ec, ?Eb, Hskip; simpl;
                repeat split; auto; try lia; try congruence.
Qed.

Lemma loop_body_inv (text : Py.str) (s s' : State) :
  reach_inv text s ->
  (i s < Z.of_nat (List.length text))%Z ->
  loop_body text s = Some s' ->
  reach_inv text s' /\ (i s < i s')%Z.
Proof.
  intros Hinv Hlt Hb.
  destruct (loop_body_spec text s Hinv Hlt)
    as (s1 & k & Hb1 & Hk & Hi & Hle & _ & Hsc).
  rewrite Hb in Hb1. injection Hb1 as <-.
  destruct Hinv as [Hi0 _].
  split; [|lia]. split; [lia|assumption].
Qed.

Lemma reach_inv_initial (text : Py.str) : reach_inv text initial.
Proof. split; simpl; [lia | discriminate]. Qed.

Lemma mask_app (ts1 ts2 : list Tag) (l : Py.str) :
  List.length ts1 <= List.length l ->
  mask (ts1 ++ ts2) l =
    mask ts1 (firstn (List.length ts1) l)
      ++ mask ts2 (skipn (List.length ts1) l).
Proof.
  revert l. induction ts1 as [|t ts1 IH]; intros l Hle; simpl.
  - reflexivity.
  - destruct l as [|c l]; simpl in *; [lia|].
    rewrite IH by lia. reflexivity.
Qed.

Lemma while_loop_spec (text : Py.str) : forall (fuel : nat) (s : State),
  reach_inv text s ->
  (Z.of_nat (List.length text) - i s <= Z.of_nat fuel)%Z ->
  exists s_end tags,
    while_loop fuel text s = Some s_end
    /\ classify_loop fuel text s = Some tags
    /\ i s_end = Z.of_nat (List.length text)
    /\ List.length tags = List.length (skipn (Z.to_nat (i s)) text)
    /\ List.concat (output s_end) =
         List.concat (output s) ++ mask tags (skipn (Z.to_nat (i s)) text).
Proof.
  induction fuel as [|fuel IH]; intros s Hinv Hfuel.
  - exists s, []. simpl.
    destruct (i s <? Z.of_nat (List.length text))%Z eqn:E; [lia|].
    destruct Hinv as [Hi _].
    assert (Z.to_nat (i s) = List.length text) as -> by lia.
    rewrite skipn_all, app_nil_r. repeat split; auto. lia.
  - simpl. destruct (i s <? Z.of_nat (List.length text))%Z eqn:E.
    + assert (Hlt : (i s < Z.of_nat (List.length text))%Z) by lia.
      destruct (loop_body_spec text s Hinv Hlt)
        as (s' & k & Hb & Hk & Hi & Hle & Hout & _).
      destruct (loop_body_inv text s s' Hinv Hlt Hb) as [Hinv' _].
      destruct (IH s' Hinv') as (s_end & tags & Hw & Hc & Hend & Hlen & Hcat);
        [lia|].
      rewrite Hb, Hw, Hc.
      exists s_end, (repeat (tag_of_step s s') (Z.to_nat (i s' - i s)) ++ tags).
      destruct Hinv as [Hi0 _].
      assert (Z.to_nat (i s' - i s) = k) as -> by lia.
      assert (Hsk : Z.to_nat (i s') = k + Z.to_nat (i s)) by lia.
      assert (Hrest : k <= List.length (skipn (Z.to_nat (i s)) text)).
      { rewrite length_skipn. lia. }
      repeat split; auto.
      * rewrite length_app, repeat_length, Hlen, Hsk, <- skipn_skipn.
        rewrite (length_skipn k). lia.
      * rewrite Hcat, Hout, concat_app. simpl. rewrite app_nil_r.
        rewrite mask_app by (now rewrite repeat_length).
        rewrite repeat_length, skipn_skipn, <- Hsk, app_assoc. reflexivity.
    + exists s, []. destruct Hinv as [Hi _].
      assert (Z.to_nat (i s) = List.length text) as -> by lia.
      rewrite skipn_all, app_nil_r. repeat split; auto. lia.
Qed.

(** The remover returns, and what it returns is the text masked character
    by character according to the classification. *)
Lemma remove_is_mask (text : Py.str) :
  exists tags,
    classify text = Some tags
    /\ List.length tags = List.length text
    /\ remove_comments_and_strings text = Some (mask tags text).
Proof.
  destruct (while_loop_spec text (List.length text) initial)
    as (s_end & tags & Hw & Hc & _ & Hlen & Hcat).
  - apply reach_inv_initial.
  - simpl. lia.
  - exists tags. unfold classify, remove_comments_and_strings.
    rewrite Hw, Hc. simpl in *. now rewrite Hcat.
Qed.

(** ** The states the remover goes through *)

Lemma state_at_guard (text : Py.str) (n : nat) (s : State) :
  state_at text n = Some s -> (i s < Z.of_nat (List.length text))%Z.
Proof.
  destruct n as [|n]; simpl.
  - destruct (0 <? Z.of_nat (List.length text))%Z eqn:E; [|discriminate].
    intros [= <-]. simpl. lia.
  - destruct (state_at text n) as [s0|]; [|discriminate].
    destruct (loop_body text s0) as [s1|]; [|discriminate].
    destruct (i s1 <? Z.of_nat (List.length text))%Z eqn:E; [|discriminate].
    intros [= <-]. lia.
Qed.

Lemma state_at_inv (text : Py.str) (n : nat) : forall s,
  state_at text n = Some s -> reach_inv text s.
Proof.
  induction n as [|n IH]; intros s; simpl.
  - destruct (0 <? Z.of_nat (List.length text))%Z; [|discriminate].
    intros [= <-]. apply reach_inv_initial.
  - destruct (state_at text n) as [s0|] eqn:E0; [|discriminate].
    destruct (loop_body text s0) as [s1|] eqn:E1; [|discriminate].
    destruct (i s1 <? Z.of_nat (List.length text))%Z; [|discriminate].
    intros [= <-].
    apply (loop_body_inv text s0 s1); auto.
    eapply state_at_guard; eassumption.
Qed.

(** The states of [state_at] are those the loop of the remover goes
    through: the run from [initial] continues from each of them. *)
Lemma while_loop_through (text : Py.str) (n : nat) : forall s fuel,
  state_at text n = Some s ->
  while_loop (n + fuel) text initial = while_loop fuel text s.
Proof.
  induction n as [|n IH]; intros s fuel; simpl.
  - destruct (0 <? Z.of_nat (List.length text))%Z; [|discriminate].
    now intros [= <-].
  - destruct (state_at text n) as [s0|] eqn:E0; [|discriminate].
    destruct (loop_body text s0) as [s1|] eqn:E1; [|discriminate].
    destruct (i s1 <? Z.of_nat (List.length text))%Z; [|discriminate].
    intros [= <-].
    pose proof (state_at_guard text n s0 E0) as Hg.
    specialize (IH s0 (S fuel) eq_refl).
    rewrite Nat.add_succ_r in IH. simpl in IH. simpl. rewrite IH.
    destruct (i s0 <? Z.of_nat (List.length text))%Z eqn:E; [|lia].
    now rewrite E1.
Qed.

(** ** Masks *)

Lemma mask_length (tags : list Tag) : forall text,
  List.length tags = List.length text ->
  List.length (mask tags text) = List.length text.
Proof.
  induction tags as [|t tags IH]; intros [|c text] H; simpl in *;
    try discriminate; auto.
Qed.

Lemma mask_nth (tags : list Tag) : forall text p t c,
  nth_error tags p = Some t -> nth_error text p = Some c ->
  nth_error (mask tags text) p = Some (mask_char t c).
Proof.
  induction tags as [|t0 tags IH]; intros [|c0 text] [|p] t c Ht Hc;
    simpl in *; try discriminate.
  - congruence.
  - eauto.
Qed.

Lemma mask_char_not_code (t : Tag) (c : ascii) :
  t <> Code -> mask_char t c = Py.space \/ mask_char t c = Py.newline.
Proof.
  destruct t; simpl; auto; [congruence|].
  intros _. destruct (Ascii.eqb c Py.newline) eqn:E; auto.
  apply Ascii.eqb_eq in E. auto.
Qed.


Lemma mask_char_newline (t : Tag) (c : ascii) :
  mask_char t c = Py.newline -> c = Py.newline.
Proof.
  destruct t; simpl; auto; try discriminate.
  destruct (Ascii.eqb c Py.newline) eqn:E; [|discriminate].
  now apply Ascii.eqb_eq in E.
Qed.


(** ** What the verdict of the matcher depends on *)

Lemma map_fst_snoc (s1 s2 : list Frame) (f1 f2 : Frame) :
  map fst (s1 ++ [f1]) = map fst (s2 ++ [f2]) ->
  map fst s1 = map fst s2 /\ fst f1 = fst f2.
Proof.
  rewrite !map_app. simpl. intros H. now apply app_inj_tail in H.
Qed.

Lemma body_open_chars (t1 t2 : Py.str) (i j : nat) (c : ascii)
    (st1 st2 : list Frame) :
  map fst st1 = map fst st2 ->
  open_chars (body t1 i c st1) = open_chars (body t2 j c st2).
Proof.
  intros Hst.
  destruct (Py.contains openers c) eqn:Ho.
  - rewrite !body_opener by assumption. unfold open_chars.
    rewrite !map_app. simpl. do 2 f_equal. exact Hst.
  - destruct (Py.contains closers c) eqn:Hc.
    + destruct (snoc_cases st1) as [-> | (s1 & [o1 i1] & ->)];
        destruct (snoc_cases st2) as [-> | (s2 & [o2 i2] & ->)].
      * now rewrite !body_closer_empty.
      * destruct s2; discriminate.
      * destruct s1; discriminate.
      * apply map_fst_snoc in Hst. destruct Hst as [Hs Ho']. simpl in Ho'.
        subst o2. rewrite !body_closer_pop by assumption.
        destruct (negb _); simpl; congruence.
    + rewrite !body_other by assumption. simpl. congruence.
Qed.

Lemma body_not_delimiter (text : Py.str) (i : nat) (c : ascii)
    (stack : list Frame) :
  is_delimiter c = false -> body text i c stack = Some (Next stack).
Proof.
  unfold is_delimiter. intros H. apply orb_false_iff in H.
  destruct H. now apply body_other.
Qed.

(** Whether the loop returns, and with which openers left, depends only on
    the delimiters among the characters, in their order: not on the other
    characters, the positions or the text the line numbers are taken in. *)
Lemma for_loop_open_chars (items : Py.str) :
  forall (t1 t2 : Py.str) (i j : nat) (st1 st2 : list Frame),
  map fst st1 = map fst st2 ->
  open_chars (for_loop t1 items i st1)
  = open_chars (for_loop t2 (filter is_delimiter items) j st2).
Proof.
  induction items as [|c items IH]; intros t1 t2 i j st1 st2 Hst; simpl.
  - now rewrite Hst.
  - destruct (is_delimiter c) eqn:Hd.
    + simpl. pose proof (body_open_chars t1 t2 i j c st1 st2 Hst) as Hb.
      destruct (body t1 i c st1) as [[d1 | s1] |];
        destruct (body t2 j c st2) as [[d2 | s2] |];
        simpl in Hb; try discriminate; auto.
      apply IH. congruence.
    + rewrite body_not_delimiter by assumption. now apply IH.
Qed.

Lemma for_loop_return_not_balanced (text items : Py.str) :
  forall (i : nat) (stack : list Frame) (d : Diagnostic),
  for_loop text items i stack = Some (Return d) -> d <> Balanced.
Proof.
  induction items as [|c items IH]; intros i stack d; simpl;
    [discriminate|].
  destruct (body text i c stack) as [[d' | s'] |] eqn:Hb;
    [|apply IH|discriminate].
  intros [= <-]. revert Hb. unfold body.
  destruct (Py.contains openers c); [discriminate|].
  destruct (Py.contains closers c); [|discriminate].
  destruct (Py.is_empty stack); [intros [= <-]; discriminate|].
  destruct (Py.pop stack) as [[[o idx] s'] |]; [|discriminate].
  destruct (Py.dict_get pairs c); [|discriminate].
  destruct (negb _); [intros [= <-]|]; discriminate.
Qed.

Lemma check_balance_balanced_iff (text : Py.str) :
  check_balance text = Some Balanced
  <-> open_chars (for_loop text text 0 []) = Some [].
Proof.
  unfold check_balance.
  destruct (for_loop text text 0 []) as [[d | stack] |] eqn:Hrun; simpl.
  - pose proof (for_loop_return_not_balanced _ _ _ _ _ Hrun).
    split; [congruence | discriminate].
  - destruct (snoc_cases stack) as [-> | (s & [o idx] & ->)]; simpl.
    + tauto.
    + rewrite is_empty_snoc, last_snoc. simpl. rewrite map_app. simpl.
      split; [discriminate|]. intros [= H].
      apply app_eq_nil in H. destruct H. discriminate.
  - split; discriminate.
Qed.

Lemma balanced_same_delimiters (t1 t2 : Py.str) :
  filter is_delimiter t1 = filter is_delimiter t2 ->
  (check_balance t1 = Some Balanced <-> check_balance t2 = Some Balanced).
Proof.
  intros H. rewrite !check_balance_balanced_iff.
  rewrite (for_loop_open_chars t1 t1 [] 0 0 [] [] eq_refl).
  rewrite (for_loop_open_chars t2 t2 [] 0 0 [] [] eq_refl).
  now rewrite H.
Qed.

(** ** The remover against the classifier of the specification *)

Lemma hd_error_skipn (text : Py.str) (n : nat) :
  hd_error (skipn n text) = nth_error text n.
Proof.
  revert n. induction text as [|x l IH]; intros [|n]; simpl; auto.
Qed.









(** * The claims of the specification *)

(** ** Claims about the matcher *)

(** C7.  Scanning the empty text returns [Balanced]. *)
Theorem C7_empty_text_balanced : check_balance [] = Some Balanced.
Proof. reflexivity. Qed.

(** C6, as the code has it.  When a closing delimiter [c], one of [)], [}]
    and []] (the characters of [')}]']), is reached
    with an empty stack, that is, after a prefix [pre] whose scan left the
    stack empty, the scan returns at once with [UnmatchedClosing] carrying
    [c] and the line number [pre.count('\n') + 1] (the newlines strictly
    before the offset of [c], plus one), together with the offset itself.
    The result does not depend on what follows [c]: no later violation is
    reported. *)
Theorem C6_unmatched_closing (pre post : Py.str) (c : ascii) :
  Py.contains closers c = true ->
  for_loop (pre ++ c :: post) pre 0 [] = Some (Next []) ->
  check_balance (pre ++ c :: post) =
    Some (UnmatchedClosing c (Py.count Py.newline pre + 1) (List.length pre)).
Proof.
  intros Hc Hpre. unfold check_balance.
  rewrite for_loop_app, Hpre. simpl.
  rewrite body_closer_empty by assumption.
  now rewrite line_no_prefix.
Qed.

Lemma C6_witness :
  Py.contains closers ")"%char = true
  /\ for_loop (Py.lit "()" ++ ")"%char :: Py.lit "(]") (Py.lit "()") 0 []
     = Some (Next [])
  /\ check_balance (Py.lit "()" ++ ")"%char :: Py.lit "(]")
     = Some (UnmatchedClosing ")"%char 1 2).
Proof.
  split; [reflexivity|]. split; [reflexivity|].
  apply (C6_unmatched_closing (Py.lit "()") (Py.lit "(]") ")"%char);
    reflexivity.
Defined.

(** C6, as stated, fails for the closer [>]: scanned with an empty stack
    it is passed over, and the scan of [>] reports [Balanced]. *)
Lemma C6_counterexample :
  for_loop (Py.lit ">") [] 0 [] = Some (Next [])
  /\ check_balance (Py.lit ">") = Some Balanced
  /\ ~ (forall (pre post : Py.str) (c : ascii),
          In c (Py.lit ")}]>") ->
          for_loop (pre ++ c :: post) pre 0 [] = Some (Next []) ->
          check_balance (pre ++ c :: post)
          = Some (UnmatchedClosing c (Py.count Py.newline pre + 1)
                    (List.length pre))).
Proof.
  do 2 (split; [reflexivity|]).
  intros H.
  assert (Hc : check_balance ([] ++ ">"%char :: [])
               = Some (UnmatchedClosing ">"%char 1 0)).
  { apply (H [] [] ">"%char); [simpl; auto | reflexivity]. }
  discriminate Hc.
Qed.

(** C5, as the code has it.  When a closing delimiter [c], one of [)],
    [}] and []], is reached with a non-empty stack
    and the frame popped from its top, [(last_open, idx)], is not the opener
    that [pairs] gives for [c], the scan returns at once with
    [MismatchedClosing] carrying [c], the line number of [c], [last_open] as
    the expected opener and [idx] as the opener index. *)
Theorem C5_mismatched_closing
    (pre post : Py.str) (c : ascii)
    (stack : list Frame) (last_open : ascii) (idx : nat) :
  Py.contains closers c = true ->
  for_loop (pre ++ c :: post) pre 0 []
    = Some (Next (stack ++ [(last_open, idx)])) ->
  Py.dict_get pairs c <> Some last_open ->
  check_balance (pre ++ c :: post) =
    Some (MismatchedClosing c (Py.count Py.newline pre + 1) last_open idx).
Proof.
  intros Hc Hpre Hne. unfold check_balance.
  rewrite for_loop_app, Hpre. simpl.
  rewrite body_closer_pop by assumption.
  destruct (pairs_of_closer _ Hc) as [o Ho]. rewrite Ho in *.
  destruct (Ascii.eqb o last_open) eqn:E.
  - apply Ascii.eqb_eq in E. congruence.
  - simpl. now rewrite line_no_prefix.
Qed.

Lemma C5_witness :
  check_balance (Py.lit "func() { return [1,2" ++ ")"%char :: Py.lit "; }")
  = Some (MismatchedClosing ")"%char 1 "["%char 16).
Proof.
  apply (C5_mismatched_closing
           (Py.lit "func() { return [1,2") (Py.lit "; }") ")"%char
           [("{"%char, 7)] "["%char 16).
  - reflexivity.
  - reflexivity.
  - discriminate.
Defined.

(** C5, as stated, fails for the closer [>] that the claim lists: in [(>]
    the [>] is reached with [(] on top of the stack, which is not the
    opener [<] that [pairs] gives for it, yet nothing is popped and the scan
    goes on to report the unclosed [(]. *)
Lemma C5_counterexample :
  for_loop (Py.lit "(>") (Py.lit "(") 0 [] = Some (Next [("("%char, 0)])
  /\ Py.dict_get pairs ">"%char = Some "<"%char
  /\ check_balance (Py.lit "(>") = Some (UnclosedOpening "("%char 1)
  /\ ~ (forall (pre post : Py.str) (c : ascii) (stack : list Frame)
               (last_open : ascii) (idx : nat),
          In c (Py.lit ")}]>") ->
          for_loop (pre ++ c :: post) pre 0 []
            = Some (Next (stack ++ [(last_open, idx)])) ->
          Py.dict_get pairs c <> Some last_open ->
          check_balance (pre ++ c :: post)
          = Some (MismatchedClosing c (Py.count Py.newline pre + 1)
                    last_open idx)).
Proof.
  do 3 (split; [reflexivity|]).
  intros H.
  assert (Hc : check_balance (Py.lit "(" ++ ">"%char :: [])
               = Some (MismatchedClosing ">"%char 1 "("%char 0)).
  { apply (H (Py.lit "(") [] ">"%char [] "("%char 0);
      [simpl; auto | reflexivity | discriminate]. }
  discriminate Hc.
Qed.

(** C2, as the code has it.  Three pairs are structural: each of [(], [{]
    and [[] pushes a frame holding the character and its index, and each of
    [)], [}] and []] is checked against the stack (unmatched on an empty
    stack, otherwise the top frame is popped and compared with [pairs]).
    Angle brackets are not: [<] and [>] leave the stack as it is and lead to
    no diagnostic, although [pairs] has an entry for [>]; a text made of
    angle brackets only, however unbalanced, is reported [Balanced]. *)
Theorem C2_three_pairs_structural
    (text : Py.str) (i : nat) (stack : list Frame)
    (last_open : ascii) (idx : nat) :
  (forall c, In c (Py.lit "({[") ->
     body text i c stack = Some (Next (stack ++ [(c, i)])))
  /\ (forall c, In c (Py.lit ")}]") ->
        body text i c [] = Some (Return (UnmatchedClosing c (line_no text i) i))
        /\ body text i c (stack ++ [(last_open, idx)]) =
             if match Py.dict_get pairs c with
                | Some expected => Ascii.eqb expected last_open
                | None => false
                end
             then Some (Next stack)
             else Some (Return (MismatchedClosing c (line_no text i)
                                                  last_open idx)))
  /\ (forall c, In c (Py.lit "<>") -> body text i c stack = Some (Next stack))
  /\ (Forall (fun c => In c (Py.lit "<>")) text ->
      check_balance text = Some Balanced).
Proof.
  split; [|split; [|split]]; [intros c Hin ..|intros Hall].
  - apply body_opener, contains_openers.
    simpl in Hin. intuition congruence.
  - assert (Hc : Py.contains closers c = true).
    { apply contains_closers. simpl in Hin. intuition congruence. }
    split; [now apply body_closer_empty|].
    rewrite body_closer_pop by assumption.
    now destruct (match Py.dict_get pairs c with Some _ => _ | None => _ end).
  - simpl in Hin. destruct Hin as [<- | [<- | []]]; reflexivity.
  - apply (balanced_same_delimiters text []); [|reflexivity].
    induction Hall as [|c t Hc _ IH]; [reflexivity|].
    simpl in *. destruct Hc as [<- | [<- | []]]; exact IH.
Qed.

(** C2, as stated, fails: a lone [<] is not pushed and the scan of [<]
    reports [Balanced]; a lone [>] is not checked; and [>] after [(] is
    passed over, so the diagnostic is the unclosed [(]. *)
Lemma C2_counterexample :
  body (Py.lit "<") 0 "<"%char [] = Some (Next [])
  /\ check_balance (Py.lit "<") = Some Balanced
  /\ check_balance (Py.lit ">") = Some Balanced
  /\ check_balance (Py.lit "(>") = Some (UnclosedOpening "("%char 1)
  /\ ~ (forall (text : Py.str) (i : nat) (stack : list Frame),
          body text i "<"%char stack
          = Some (Next (stack ++ [("<"%char, i)]))).
Proof.
  do 4 (split; [reflexivity|]).
  intros H. specialize (H [] 0 []). discriminate H.
Qed.

(** C3, as the code has it.  When the loop ends without a [return] and the
    stack is not empty, the scan fails with [UnclosedOpening] built from
    [stack[-1]], the top-most frame: its character and the line number of
    its position.  That frame is the opener of [text] with the greatest
    position on the stack, the most recently opened (innermost) one still
    unclosed. *)
Theorem C3_unclosed_reports_top (text : Py.str) (stack : list Frame) :
  for_loop text text 0 [] = Some (Next stack) ->
  stack <> [] ->
  exists last_open idx,
    Py.last stack = Some (last_open, idx)
    /\ check_balance text =
         Some (UnclosedOpening last_open
                 (Py.count Py.newline (firstn idx text) + 1))
    /\ nth_error text idx = Some last_open
    /\ forall f, In f stack -> snd f <= idx.
Proof.
  intros Hrun Hne.
  destruct (snoc_cases stack) as [-> | (s & [o idx] & ->)]; [congruence|].
  pose proof (final_stack_inv text _ Hrun) as Hinv.
  exists o, idx. split; [apply last_snoc|]. split; [|split].
  - unfold check_balance. rewrite Hrun. simpl.
    now rewrite is_empty_snoc, last_snoc.
  - destruct Hinv as [_ Hf].
    destruct (Hf (o, idx)) as (_ & Hnth & _); [|exact Hnth].
    apply in_app_iff. right. now left.
  - intros f Hin. apply (stack_inv_top text _ _ _ Hinv f Hin).
Qed.

Lemma C3_witness :
  exists last_open idx,
    Py.last [("("%char, 0); ("{"%char, 2)] = Some (last_open, idx)
    /\ check_balance Examples.two_open =
         Some (UnclosedOpening last_open
                 (Py.count Py.newline (firstn idx Examples.two_open) + 1))
    /\ nth_error Examples.two_open idx = Some last_open
    /\ forall f, In f [("("%char, 0); ("{"%char, 2)] -> snd f <= idx.
Proof.
  apply (C3_unclosed_reports_top Examples.two_open
           [("("%char, 0); ("{"%char, 2)]).
  - reflexivity.
  - discriminate.
Defined.

(** C3, as stated, fails on [(\n{]: the loop ends with the stack
    [[('(', 0), ('{', 2)]], whose bottom-most frame is the [(] of line 1,
    and the scan reports the [{] of line 2. *)
Lemma C3_counterexample :
  for_loop Examples.two_open Examples.two_open 0 []
    = Some (Next [("("%char, 0); ("{"%char, 2)])
  /\ hd_error [("("%char, 0); ("{"%char, 2)] = Some ("("%char, 0)
  /\ line_no Examples.two_open 0 = 1
  /\ check_balance Examples.two_open = Some (UnclosedOpening "{"%char 2)
  /\ ~ (forall (text : Py.str) (stack : list Frame) (bottom : Frame),
          for_loop text text 0 [] = Some (Next stack) ->
          hd_error stack = Some bottom ->
          check_balance text
          = Some (UnclosedOpening (fst bottom) (line_no text (snd bottom)))).
Proof.
  do 4 (split; [reflexivity|]).
  intros H.
  specialize (H Examples.two_open _ _ eq_refl eq_refl). discriminate H.
Qed.

(** ** Claims about the remover *)

(** X8.  The remover keeps the length of the text. *)
Lemma remove_preserves_length (text : Py.str) :
  exists masked,
    remove_comments_and_strings text = Some masked
    /\ List.length masked = List.length text.
Proof.
  destruct (remove_is_mask text) as (tags & _ & Hlen & Hrem).
  exists (mask tags text). split; [assumption|]. now apply mask_length.
Qed.

(** X9.  A newline of the output stands where the text has one; the converse
    holds for the characters tagged [Code] or [LineComment] only. *)
Lemma remove_newlines (text : Py.str) :
  exists tags masked,
    classify text = Some tags
    /\ remove_comments_and_strings text = Some masked
    /\ (forall p, nth_error masked p = Some Py.newline ->
                  nth_error text p = Some Py.newline)
    /\ (forall p t, nth_error tags p = Some t ->
                    t = Code \/ t = LineComment ->
                    nth_error text p = Some Py.newline ->
                    nth_error masked p = Some Py.newline).
Proof.
  destruct (remove_is_mask text) as (tags & Hcl & Hlen & Hrem).
  exists tags, (mask tags text). repeat split; auto.
  - intros p Hp.
    destruct (nth_error tags p) as [t|] eqn:Et.
    + destruct (nth_error text p) as [c|] eqn:Ec.
      * rewrite (mask_nth tags text p t c Et Ec) in Hp.
        injection Hp as Hp. apply mask_char_newline in Hp. now subst.
      * apply nth_error_None in Ec.
        assert (p < List.length tags) by (apply nth_error_Some; congruence).
        lia.
    + apply nth_error_None in Et.
      assert (p < List.length (mask tags text))
        by (apply nth_error_Some; congruence).
      rewrite mask_length in * by assumption. lia.
  - intros p t Ht Hcases Hc.
    rewrite (mask_nth tags text p t _ Ht Hc).
    destruct Hcases as [-> | ->]; reflexivity.
Qed.

(** C4, at the failing input.  On the block comment [/*\n*/] the remover
    returns five spaces: the length is kept, the newline at offset 2 is
    not, and the number of newlines before offset 3 drops from 1 to 0.  The
    same happens to a newline inside a string. *)
Theorem C4_newline_lost_in_block_comment :
  remove_comments_and_strings Examples.block_two_lines
    = Some (repeat Py.space 5)
  /\ nth_error Examples.block_two_lines 2 = Some Py.newline
  /\ nth_error (repeat Py.space 5) 2 = Some Py.space
  /\ Py.count Py.newline (firstn 3 Examples.block_two_lines) = 1
  /\ Py.count Py.newline (firstn 3 (repeat Py.space 5)) = 0
  /\ remove_comments_and_strings Examples.template_two_lines
     = Some (repeat Py.space 5).
Proof. repeat split. Qed.

(** C8.  In every state of the loop in which [in_string] holds, the
    iteration reads [char = text[i]] and, [i] being at least 1, the
    character before it, [prev = text[i-1]]; it leaves string mode exactly
    when [char] is the recorded [string_char] (the quote that opened the
    string) and [prev] is not a backslash, stays in string mode otherwise,
    and in both cases appends one space for [char] and moves on by one
    character. *)
Theorem C8_string_mode_step (text : Py.str) (n : nat) (s : State) :
  state_at text n = Some s ->
  in_string s = true ->
  exists char prev delimiter s',
    nth_error text (Z.to_nat (i s)) = Some char
    /\ (1 <= i s)%Z
    /\ nth_error text (Z.to_nat (i s) - 1) = Some prev
    /\ string_char s = Some delimiter
    /\ In delimiter [Py.dquote; Py.squote; Py.backquote]
    /\ loop_body text s = Some s'
    /\ (in_string s' = false <-> char = delimiter /\ prev <> Py.backslash)
    /\ (in_string s' = true <-> ~ (char = delimiter /\ prev <> Py.backslash))
    /\ output s' = output s ++ [[Py.space]]
    /\ i s' = (i s + 1)%Z
    /\ string_char s' = string_char s
    /\ in_comment s' = in_comment s
    /\ in_block_comment s' = in_block_comment s.
Proof.
  intros Hat Hs.
  pose proof (state_at_guard text n s Hat) as Hlt.
  destruct (state_at_inv text n s Hat) as [Hi Hstr].
  destruct (Hstr Hs) as (q & j & Eq & Hquote & Hj & _).
  destruct (getitem_in_range text (i s)) as [char Hchar]; [lia|].
  destruct (getitem_in_range text (i s - 1)) as [prev Hprev]; [lia|].
  replace (Z.to_nat (i s - 1)) with (Z.to_nat (i s) - 1) in Hprev by lia.
  exists char, prev, q.
  unfold loop_body. rewrite getitem_nat, Hchar, Hs by lia.
  rewrite getitem_nat by lia.
  replace (Z.to_nat (i s - 1)) with (Z.to_nat (i s) - 1) by lia.
  rewrite Hprev. unfold is_string_char. rewrite Eq.
  destruct (Ascii.eqb char q) eqn:Ec;
    [destruct (Ascii.eqb prev Py.backslash) eqn:Ep|];
    rewrite ?Ascii.eqb_eq, ?Ascii.eqb_neq in *; simpl;
    eexists; (split; [reflexivity|]); (split; [lia|]);
    (split; [reflexivity|]); (split; [reflexivity|]);
    (split; [assumption|]); (split; [reflexivity|]);
    simpl; rewrite ?Hs; repeat split; intros; auto;
    try congruence; try tauto; intuition congruence.
Qed.

Lemma C8_witness :
  exists char prev delimiter s',
    nth_error Examples.escaped_quote 3 = Some char
    /\ (1 <= 3)%Z
    /\ nth_error Examples.escaped_quote 2 = Some prev
    /\ Some Py.dquote = Some delimiter
    /\ In delimiter [Py.dquote; Py.squote; Py.backquote]
    /\ loop_body Examples.escaped_quote
         (mkState [[Py.space]; [Py.space]; [Py.space]] 3 true
                  (Some Py.dquote) false false) = Some s'
    /\ (in_string s' = false <-> char = delimiter /\ prev <> Py.backslash)
    /\ (in_string s' = true <-> ~ (char = delimiter /\ prev <> Py.backslash))
    /\ output s' = [[Py.space]; [Py.space]; [Py.space]] ++ [[Py.space]]
    /\ i s' = (3 + 1)%Z
    /\ string_char s' = Some Py.dquote
    /\ in_comment s' = false
    /\ in_block_comment s' = false.
Proof.
  exact (C8_string_mode_step Examples.escaped_quote 3
           (mkState [[Py.space]; [Py.space]; [Py.space]] 3 true
                    (Some Py.dquote) false false)
           eq_refl eq_refl).
Defined.

(** C10.  The remover returns a string for every text, and whenever a
    state of its loop has [in_string] set, so that the string branch may
    read [text[i-1]], a quote was consumed at an index [j] smaller than [i];
    hence [i] is at least 1 and the lookbehind reads the character just
    before [i], never, by wrapping around, the last one of the text. *)
Theorem C10_lookbehind_in_range_and_total (text : Py.str) :
  (exists masked, remove_comments_and_strings text = Some masked)
  /\ forall (n : nat) (s : State),
       state_at text n = Some s ->
       in_string s = true ->
       opened_by_quote text s
       /\ (1 <= i s)%Z
       /\ Py.getitem text (i s - 1) = nth_error text (Z.to_nat (i s) - 1)
       /\ exists prev, Py.getitem text (i s - 1) = Some prev.
Proof.
  split.
  - destruct (remove_is_mask text) as (tags & _ & _ & H). eauto.
  - intros n s Hat Hs.
    pose proof (state_at_guard text n s Hat) as Hlt.
    destruct (state_at_inv text n s Hat) as [Hi Hstr].
    pose proof (Hstr Hs) as Hopen.
    destruct Hopen as (q & j & Hq & Hquote & Hj & Hnth).
    split; [exists q, j; auto|]. split; [lia|]. split.
    + rewrite getitem_nat by lia. f_equal. lia.
    + apply getitem_prev_total. lia.
Qed.

Lemma C10_witness :
  opened_by_quote Examples.escaped_quote
    (mkState [[Py.space]; [Py.space]] 2 true (Some Py.dquote) false false)
  /\ (1 <= 2)%Z
  /\ Py.getitem Examples.escaped_quote (2 - 1)
     = nth_error Examples.escaped_quote (Z.to_nat 2 - 1)
  /\ exists prev, Py.getitem Examples.escaped_quote (2 - 1) = Some prev.
Proof.
  exact (proj2 (C10_lookbehind_in_range_and_total Examples.escaped_quote)
           2 (mkState [[Py.space]; [Py.space]] 2 true (Some Py.dquote)
                      false false)
           eq_refl eq_refl).
Defined.

(** ** Claims about the scan as a whole *)

(** C9.  The scan is a function of its text: [check_balance] returns
    exactly one [Diagnostic] for every text (it never raises), so two runs
    on the same text yield the same one; [remove_comments_and_strings]
    likewise returns exactly one string. *)
Theorem C9_scan_deterministic (text : Py.str) :
  (exists d, check_balance text = Some d
             /\ forall d', check_balance text = Some d' -> d' = d)
  /\ (exists masked, remove_comments_and_strings text = Some masked
                     /\ forall masked',
                          remove_comments_and_strings text = Some masked' ->
                          masked' = masked).
Proof.
  split.
  - destruct (check_balance_total text) as [d Hd].
    exists d. split; [assumption | congruence].
  - destruct (remove_is_mask text) as (tags & _ & _ & Hm).
    eexists. split; [eassumption | congruence].
Qed.


(** Scenario 4 on the remover's output: masked, [{ // }\n}] is balanced. *)
Example masked_comment_line_balanced :
  remove_comments_and_strings Examples.comment_line
    = Some (Py.lit "{" ++ repeat Py.space 5 ++ [Py.newline] ++ Py.lit "}")
  /\ check_balance
       (Py.lit "{" ++ repeat Py.space 5 ++ [Py.newline] ++ Py.lit "}")
     = Some Balanced.
Proof. split; reflexivity. Qed.

(** The three occurrences the claim names, a brace in a string, in a line
    comment and in a block comment, each after an opening brace and before
    its closing brace: the remover blanks them and the masked text is
    balanced. *)
Example masked_string_balanced :
  spec_classify SCode (Py.lit "{" ++ [Py.dquote] ++ Py.lit "}"
                         ++ [Py.dquote] ++ Py.lit "}")
    = [Code; StringLiteral; StringLiteral; StringLiteral; Code]
  /\ remove_comments_and_strings
       (Py.lit "{" ++ [Py.dquote] ++ Py.lit "}" ++ [Py.dquote] ++ Py.lit "}")
     = Some (Py.lit "{   }")
  /\ check_balance (Py.lit "{   }") = Some Balanced.
Proof. repeat split. Qed.

Example masked_block_comment_balanced :
  spec_classify SCode (Py.lit "{/* } */}")
    = [Code; BlockComment; BlockComment; BlockComment; BlockComment;
       BlockComment; BlockComment; BlockComment; Code]
  /\ remove_comments_and_strings (Py.lit "{/* } */}")
     = Some (Py.lit "{       }")
  /\ check_balance (Py.lit "{       }") = Some Balanced.
Proof. repeat split. Qed.


(** * Further properties of the code *)

(** ** The matcher *)

(** What a [return] inside the loop tells. *)
Lemma body_return_inv (text : Py.str) (i : nat) (c : ascii)
    (stack : list Frame) (d : Diagnostic) :
  body text i c stack = Some (Return d) ->
  Py.contains closers c = true
  /\ ((stack = [] /\ d = UnmatchedClosing c (line_no text i) i)
      \/ exists s o idx,
           stack = s ++ [(o, idx)]
           /\ Py.dict_get pairs c <> Some o
           /\ d = MismatchedClosing c (line_no text i) o idx).
Proof.
  intros Hb.
  destruct (Py.contains openers c) eqn:Ho.
  - rewrite body_opener in Hb by assumption. discriminate.
  - destruct (Py.contains closers c) eqn:Hc.
    + split; [reflexivity|].
      destruct (snoc_cases stack) as [-> | (s & [o idx] & ->)].
      * rewrite body_closer_empty in Hb by assumption.
        injection Hb as <-. now left.
      * rewrite body_closer_pop in Hb by assumption. right.
        exists s, o, idx. split; [reflexivity|].
        destruct (Py.dict_get pairs c) as [e|] eqn:Ed; simpl in Hb.
        -- destruct (Ascii.eqb e o) eqn:Ee; simpl in Hb; [discriminate|].
           apply Ascii.eqb_neq in Ee. injection Hb as <-.
           split; congruence.
        -- injection Hb as <-. split; congruence.
    + rewrite body_other in Hb by assumption. discriminate.
Qed.

Lemma for_loop_return_inv (text items : Py.str) :
  forall (i : nat) (stack : list Frame) (d : Diagnostic),
  for_loop text items i stack = Some (Return d) ->
  exists pre c post st,
    items = pre ++ c :: post
    /\ for_loop text pre i stack = Some (Next st)
    /\ body text (i + List.length pre) c st = Some (Return d).
Proof.
  induction items as [|c items IH]; intros i stack d H; simpl in H;
    [discriminate|].
  destruct (body text i c stack) as [[d' | s'] |] eqn:Hb; try discriminate.
  - injection H as <-. exists [], c, items, stack. simpl.
    now rewrite Nat.add_0_r.
  - destruct (IH _ _ _ H) as (pre & c' & post & st & -> & Hpre & Hbody).
    exists (c :: pre), c', post, st. simpl. rewrite Hb.
    rewrite Nat.add_succ_r. auto.
Qed.

Lemma check_balance_return_inv (text : Py.str) (d : Diagnostic) :
  check_balance text = Some d ->
  (exists stack, for_loop text text 0 [] = Some (Next stack)
     /\ ((stack = [] /\ d = Balanced)
         \/ exists s o idx, stack = s ++ [(o, idx)]
              /\ d = UnclosedOpening o (line_no text idx)))
  \/ for_loop text text 0 [] = Some (Return d).
Proof.
  unfold check_balance.
  destruct (for_loop text text 0 []) as [[d' | stack] |]; try discriminate.
  - intros [= <-]. now right.
  - intros H. left. exists stack. split; [reflexivity|].
    destruct (snoc_cases stack) as [-> | (s & [o idx] & ->)].
    + left. simpl in H. split; [reflexivity | congruence].
    + right. rewrite is_empty_snoc, last_snoc in H. simpl in H.
      exists s, o, idx. split; [reflexivity | congruence].
Qed.

Lemma firstn_app_length {A} (pre post : list A) :
  firstn (List.length pre) (pre ++ post) = pre.
Proof.
  rewrite firstn_app, Nat.sub_diag, firstn_all. simpl. apply app_nil_r.
Qed.

Lemma nth_error_middle (pre post : Py.str) (c : ascii) :
  nth_error (pre ++ c :: post) (List.length pre) = Some c.
Proof. rewrite nth_error_app2, Nat.sub_diag by lia. reflexivity. Qed.

(** X2.  An [UnmatchedClosing] diagnostic is justified by the text: the reported
    index holds the reported closer, the reported line is the line of that
    index, and the text before it scans without a failure and leaves no
    opener on the stack. *)
Theorem unmatched_closing_sound
    (text : Py.str) (c : ascii) (line index : nat) :
  check_balance text = Some (UnmatchedClosing c line index) ->
  nth_error text index = Some c
  /\ In c (Py.lit ")}]")
  /\ line = Py.count Py.newline (firstn index text) + 1
  /\ for_loop text (firstn index text) 0 [] = Some (Next []).
Proof.
  intros H. apply check_balance_return_inv in H.
  destruct H as [(stack & _ & [[_ H] | (s & o & idx & _ & H)]) | H];
    try discriminate.
  apply for_loop_return_inv in H.
  destruct H as (pre & c' & post & st & Ht & Hpre & Hbody).
  apply body_return_inv in Hbody.
  destruct Hbody as [Hc [[-> Hd] | (s & o & idx & _ & _ & Hd)]];
    [|discriminate].
  injection Hd as Hc' Hl Hi. subst. simpl.
  rewrite nth_error_middle, firstn_app_length.
  repeat split; auto.
  - apply contains_closers in Hc. simpl. intuition auto.
  - unfold line_no. rewrite firstn_app_length. reflexivity.
Qed.

Lemma unmatched_closing_sound_witness :
  nth_error (Py.lit "())(]") 2 = Some ")"%char
  /\ In ")"%char (Py.lit ")}]")
  /\ 1 = Py.count Py.newline (firstn 2 (Py.lit "())(]")) + 1
  /\ for_loop (Py.lit "())(]") (firstn 2 (Py.lit "())(]")) 0 []
     = Some (Next []).
Proof.
  exact (unmatched_closing_sound (Py.lit "())(]") ")"%char 1 2 eq_refl).
Defined.

Lemma for_loop_prefix_inv (text : Py.str) (items : Py.str) :
  forall (pre rest : Py.str) (stack stack' : list Frame),
  text = pre ++ items ++ rest ->
  stack_inv text (List.length pre) stack ->
  for_loop text items (List.length pre) stack = Some (Next stack') ->
  stack_inv text (List.length pre + List.length items) stack'.
Proof.
  induction items as [|c items IH]; intros pre rest stack stack' Ht Hinv Hrun.
  - simpl in *. injection Hrun as <-. now rewrite Nat.add_0_r.
  - simpl in Hrun.
    destruct (body text (List.length pre) c stack) as [[d | s1] |] eqn:Hb;
      try discriminate.
    assert (Hs1 : stack_inv text (S (List.length pre)) s1).
    { eapply body_inv; [|eassumption..]. exact Ht. }
    specialize (IH (pre ++ [c]) rest s1 stack').
    rewrite length_app, Nat.add_1_r in IH. simpl.
    rewrite Nat.add_succ_r. apply IH; auto.
    rewrite <- app_assoc. exact Ht.
Qed.

(** After any prefix the scan gets through, the frames of the stack are
    openers of that prefix at their recorded positions, in the order of
    their positions. *)
Lemma prefix_stack_frames
    (pre rest : Py.str) (stack : list Frame) :
  for_loop (pre ++ rest) pre 0 [] = Some (Next stack) ->
  (forall o idx, In (o, idx) stack ->
     idx < List.length pre
     /\ nth_error pre idx = Some o
     /\ In o (Py.lit "({["))
  /\ StronglySorted Nat.lt (map snd stack).
Proof.
  intros Hrun.
  pose proof (for_loop_prefix_inv (pre ++ rest) pre [] rest [] stack
                eq_refl (stack_inv_nil _ _) Hrun) as [Hs Hf].
  simpl in *. split.
  - intros o idx Hin. destruct (Hf _ Hin) as (Hlt & Hnth & Ho). simpl in *.
    repeat split; auto.
    + rewrite nth_error_app1 in Hnth by assumption. exact Hnth.
    + apply contains_openers in Ho. simpl. intuition auto.
  - clear Hf Hrun. revert Hs.
    induction stack as [|f stack IH] using rev_ind; intros Hs; simpl.
    + constructor.
    + rewrite rev_app_distr in Hs. simpl in Hs.
      inversion Hs as [|? ? Hs' Hall]; subst.
      rewrite map_app. simpl.
      specialize (IH Hs').
      clear Hs Hs'. rewrite Forall_forall in Hall.
      assert (Hall' : forall g, In g stack -> snd g < snd f).
      { intros g Hg. apply Hall. now apply -> in_rev. }
      clear Hall. induction stack as [|g stack IHs]; simpl.
      * repeat constructor.
      * inversion IH as [|? ? Hs2 Hall2]; subst. constructor.
        -- apply IHs; auto. intros h Hh. apply Hall'. now right.
        -- apply Forall_app. split; [assumption|].
           constructor; [|constructor]. apply Hall'. now left.
Qed.

(** The depth of the stack is the number of openers scanned less the
    number of closers scanned. *)
Lemma for_loop_depth (t items : Py.str) :
  forall (i : nat) (st st' : list Frame),
  for_loop t items i st = Some (Next st') ->
  List.length st' + List.length (filter (Py.contains closers) items)
  = List.length st + List.length (filter (Py.contains openers) items).
Proof.
  induction items as [|x items IH]; intros i st st' Hrun; simpl in Hrun.
  - injection Hrun as <-. reflexivity.
  - cbn [filter]. destruct (Py.contains openers x) eqn:Ho.
    + rewrite body_opener in Hrun by assumption.
      apply IH in Hrun. rewrite length_app in Hrun.
      destruct (Py.contains closers x) eqn:Hc.
      * apply closers_not_openers in Hc. congruence.
      * cbn [List.length] in *. lia.
    + destruct (Py.contains closers x) eqn:Hc.
      * destruct (snoc_cases st) as [-> | (s & [o1 i1] & ->)].
        { rewrite body_closer_empty in Hrun by assumption. discriminate. }
        rewrite body_closer_pop in Hrun by assumption.
        destruct (negb _); [discriminate|].
        apply IH in Hrun. rewrite length_app. cbn [List.length] in *. lia.
      * rewrite body_other in Hrun by assumption.
        apply IH in Hrun. lia.
Qed.

(** X6.  The invariant of the stack.  After any prefix the scan gets through
    without returning, every frame records an opener of that prefix at the
    position the frame carries, the positions increase from the bottom of the
    stack to its top, and the depth of the stack is the number of openers
    scanned less the number of closers scanned. *)
Theorem scan_stack_invariant
    (pre rest : Py.str) (stack : list Frame) :
  for_loop (pre ++ rest) pre 0 [] = Some (Next stack) ->
  (forall o idx, In (o, idx) stack ->
     idx < List.length pre
     /\ nth_error pre idx = Some o
     /\ In o (Py.lit "({["))
  /\ StronglySorted Nat.lt (map snd stack)
  /\ List.length stack + List.length (filter (Py.contains closers) pre)
     = List.length (filter (Py.contains openers) pre).
Proof.
  intros Hrun.
  destruct (prefix_stack_frames pre rest stack Hrun) as [Hf Hs].
  split; [assumption|]. split; [assumption|].
  apply (for_loop_depth (pre ++ rest) pre 0 [] stack Hrun).
Qed.

Lemma scan_stack_invariant_witness :
  (forall o idx,
     In (o, idx) [("("%char, 0); ("["%char, 3)] ->
     idx < List.length (Py.lit "({}[")
     /\ nth_error (Py.lit "({}[") idx = Some o
     /\ In o (Py.lit "({["))
  /\ StronglySorted Nat.lt (map snd [("("%char, 0); ("["%char, 3)])
  /\ List.length [("("%char, 0); ("["%char, 3)]
     + List.length (filter (Py.contains closers) (Py.lit "({}["))
     = List.length (filter (Py.contains openers) (Py.lit "({}[")).
Proof.
  exact (scan_stack_invariant (Py.lit "({}[") (Py.lit "])")
           [("("%char, 0); ("["%char, 3)] eq_refl).
Defined.

(** X3.  A [MismatchedClosing] diagnostic is justified by the text: some index
    [i] on the reported line holds the reported closer; the scan of the text
    before [i] succeeds and leaves the reported opener on top of the stack;
    that opener stands in the text at the reported opener index, before
    [i]; and it is not the opener [pairs] gives for the closer. *)
Theorem mismatched_closing_sound
    (text : Py.str) (c : ascii) (line : nat) (o : ascii) (idx : nat) :
  check_balance text = Some (MismatchedClosing c line o idx) ->
  exists i stack,
    nth_error text i = Some c
    /\ In c (Py.lit ")}]")
    /\ line = Py.count Py.newline (firstn i text) + 1
    /\ for_loop text (firstn i text) 0 [] = Some (Next (stack ++ [(o, idx)]))
    /\ idx < i
    /\ nth_error text idx = Some o
    /\ In o (Py.lit "({[")
    /\ Py.dict_get pairs c <> Some o.
Proof.
  intros H. apply check_balance_return_inv in H.
  destruct H as [(stack & _ & [[_ H] | (s & o' & idx' & _ & H)]) | H];
    try discriminate.
  apply for_loop_return_inv in H.
  destruct H as (pre & c' & post & st & Ht & Hpre & Hbody).
  apply body_return_inv in Hbody.
  destruct Hbody as [Hc [[_ Hd] | (s & o' & idx' & -> & Hne & Hd)]];
    [discriminate|].
  injection Hd as Hc' Hl Ho Hi. subst c' o' idx' line text. simpl in *.
  exists (List.length pre), s.
  rewrite nth_error_middle, firstn_app_length.
  destruct (prefix_stack_frames pre (c :: post) _ Hpre)
    as [Hframes _].
  destruct (Hframes o idx) as (Hlt & Hnth & Ho);
    [apply in_app_iff; right; now left|].
  repeat split; auto.
  - apply contains_closers in Hc. simpl. intuition auto.
  - unfold line_no. now rewrite firstn_app_length.
  - rewrite nth_error_app1 by assumption. exact Hnth.
Qed.

Lemma mismatched_closing_sound_witness :
  exists i stack,
    nth_error (Py.lit "func() { return [1,2); }") i = Some ")"%char
    /\ In ")"%char (Py.lit ")}]")
    /\ 1 = Py.count Py.newline
             (firstn i (Py.lit "func() { return [1,2); }")) + 1
    /\ for_loop (Py.lit "func() { return [1,2); }")
         (firstn i (Py.lit "func() { return [1,2); }")) 0 []
       = Some (Next (stack ++ [("["%char, 16)]))
    /\ 16 < i
    /\ nth_error (Py.lit "func() { return [1,2); }") 16 = Some "["%char
    /\ In "["%char (Py.lit "({[")
    /\ Py.dict_get pairs ")"%char <> Some "["%char.
Proof.
  exact (mismatched_closing_sound (Py.lit "func() { return [1,2); }")
           ")"%char 1 "["%char 16 eq_refl).
Defined.

Lemma count_firstn_le (c : ascii) (n : nat) (s : Py.str) :
  Py.count c (firstn n s) <= Py.count c s.
Proof.
  unfold Py.count. revert n. induction s as [|x s IH]; intros [|n]; simpl;
    try lia.
  specialize (IH n). destruct (Ascii.eqb c x); simpl; lia.
Qed.

(** X4.  Every line number a diagnostic carries is a line of the text: it lies
    between 1 and the number of newlines of the text plus one. *)
Theorem reported_line_in_text (text : Py.str) (d : Diagnostic) (line : nat) :
  check_balance text = Some d ->
  reported_line d = Some line ->
  1 <= line <= Py.count Py.newline text + 1.
Proof.
  intros H Hl.
  assert (Hb : forall i, 1 <= line_no text i <= Py.count Py.newline text + 1).
  { intros i. unfold line_no.
    pose proof (count_firstn_le Py.newline i text). lia. }
  apply check_balance_return_inv in H.
  destruct H as [(stack & _ & [[_ ->] | (s & o & idx & _ & ->)]) | H].
  - discriminate.
  - injection Hl as <-. apply Hb.
  - apply for_loop_return_inv in H.
    destruct H as (pre & c & post & st & _ & _ & Hbody).
    apply body_return_inv in Hbody.
    destruct Hbody as [_ [[_ ->] | (s & o & idx & _ & _ & ->)]];
      injection Hl as <-; apply Hb.
Qed.

Lemma reported_line_in_text_witness :
  1 <= 2 <= Py.count Py.newline Examples.two_open + 1.
Proof.
  exact (reported_line_in_text Examples.two_open
           (UnclosedOpening "{"%char 2) 2 eq_refl eq_refl).
Defined.

Lemma line_no_app (pre post : Py.str) (i : nat) :
  i <= List.length pre -> line_no (pre ++ post) i = line_no pre i.
Proof.
  intros H. unfold line_no. rewrite firstn_app.
  replace (i - List.length pre) with 0 by lia. simpl.
  now rewrite app_nil_r.
Qed.

Lemma for_loop_text_ext (pre post items : Py.str) :
  forall (i : nat) (stack : list Frame),
  i + List.length items <= List.length pre ->
  for_loop (pre ++ post) items i stack = for_loop pre items i stack.
Proof.
  induction items as [|c items IH]; intros i stack Hle; simpl in *;
    [reflexivity|].
  assert (Hb : body (pre ++ post) i c stack = body pre i c stack).
  { unfold body. rewrite line_no_app by lia. reflexivity. }
  rewrite Hb. destruct (body pre i c stack) as [[d | s] |]; auto.
  apply IH. lia.
Qed.

(** X5.  First failure wins: an unmatched or mismatched closer reported for a
    text is reported, unchanged, for every text that extends it. *)
Theorem closing_failure_stable (pre post : Py.str) (d : Diagnostic) :
  check_balance pre = Some d ->
  is_closing_failure d = true ->
  check_balance (pre ++ post) = Some d.
Proof.
  intros H Hd. apply check_balance_return_inv in H.
  destruct H as [(stack & _ & [[_ ->] | (s & o & idx & _ & ->)]) | H];
    try discriminate.
  unfold check_balance.
  rewrite for_loop_app, for_loop_text_ext by (simpl; lia).
  now rewrite H.
Qed.

Lemma closing_failure_stable_witness :
  check_balance (Py.lit "f(a))" ++ Py.lit "((( [ {")
  = Some (UnmatchedClosing ")"%char 1 4).
Proof.
  exact (closing_failure_stable (Py.lit "f(a))") (Py.lit "((( [ {")
           (UnmatchedClosing ")"%char 1 4) eq_refl eq_refl).
Defined.

Lemma open_chars_nil (r : option flow) :
  open_chars r = Some [] -> r = Some (Next []).
Proof.
  destruct r as [[d | stack] |]; simpl; try discriminate.
  intros [= H]. apply map_eq_nil in H. now subst.
Qed.

Lemma for_loop_any_text (t1 t2 items : Py.str) (i j : nat)
    (st1 st2 : list Frame) :
  map fst st1 = map fst st2 ->
  open_chars (for_loop t1 items i st1) = open_chars (for_loop t2 items j st2).
Proof.
  intros H.
  rewrite (for_loop_open_chars items t1 t2 i j st1 st2 H).
  symmetry. apply for_loop_open_chars. reflexivity.
Qed.

(** After a balanced text the scan starts afresh. *)
Lemma balanced_concat (a b : Py.str) :
  check_balance a = Some Balanced ->
  (check_balance (a ++ b) = Some Balanced <-> check_balance b = Some Balanced).
Proof.
  rewrite !check_balance_balanced_iff. intros Ha.
  rewrite for_loop_app.
  rewrite (for_loop_any_text a (a ++ b) a 0 0 [] [] eq_refl) in Ha.
  apply open_chars_nil in Ha. rewrite Ha.
  rewrite (for_loop_any_text (a ++ b) b b (0 + List.length a) 0 [] [] eq_refl).
  reflexivity.
Qed.

(** Scanning with more frames below: a run that does not return leaves the
    frames below untouched. *)
Lemma for_loop_frame (items : Py.str) :
  forall (t1 t2 : Py.str) (i j : nat) (st1 st2 : list Frame)
         (below left : list ascii),
  map fst st2 = below ++ map fst st1 ->
  open_chars (for_loop t1 items i st1) = Some left ->
  open_chars (for_loop t2 items j st2) = Some (below ++ left).
Proof.
  induction items as [|c items IH];
    intros t1 t2 i j st1 st2 below left Hst Hrun; simpl in *.
  - injection Hrun as <-. now rewrite Hst.
  - destruct (Py.contains openers c) eqn:Ho.
    + rewrite body_opener in * by assumption.
      apply (IH t1 t2 (S i) (S j) (st1 ++ [(c, i)]) (st2 ++ [(c, j)])
               below left); [|assumption].
      rewrite !map_app. simpl. rewrite app_assoc. f_equal. exact Hst.
    + destruct (Py.contains closers c) eqn:Hc.
      * destruct (snoc_cases st1) as [-> | (s1 & [o1 i1] & ->)].
        { rewrite body_closer_empty in Hrun by assumption. discriminate. }
        rewrite map_app in Hst. simpl in Hst. rewrite app_assoc in Hst.
        destruct (snoc_cases st2) as [-> | (s2 & [o2 i2] & ->)].
        { symmetry in Hst. apply app_eq_nil in Hst.
          destruct Hst; discriminate. }
        rewrite map_app in Hst. simpl in Hst.
        apply app_inj_tail in Hst. destruct Hst as [Hs <-].
        rewrite body_closer_pop in * by assumption.
        destruct (negb _); [discriminate|].
        apply (IH t1 t2 (S i) (S j) s1 s2 below left); assumption.
      * rewrite body_other in * by assumption.
        apply (IH t1 t2 (S i) (S j) st1 st2 below left); assumption.
Qed.

(** A balanced text inside a matching pair is balanced. *)
Lemma balanced_wrap (t : Py.str) (o c : ascii) :
  In (c, o) [(")"%char, "("%char); ("}"%char, "{"%char);
             ("]"%char, "["%char)] ->
  check_balance t = Some Balanced ->
  check_balance (o :: t ++ [c]) = Some Balanced.
Proof.
  intros Hpair. rewrite !check_balance_balanced_iff. intros Ht.
  assert (Ho : Py.contains openers o = true
               /\ Py.contains closers c = true
               /\ Py.dict_get pairs c = Some o).
  { simpl in Hpair.
    destruct Hpair as [[= <- <-] | [[= <- <-] | [[= <- <-] | []]]];
      repeat split. }
  destruct Ho as (Ho & Hc & Hp).
  set (text := o :: t ++ [c]).
  change (for_loop text text 0 []) with (for_loop text (o :: t ++ [c]) 0 []).
  simpl. rewrite body_opener by assumption. simpl.
  rewrite for_loop_app.
  pose proof (for_loop_frame t t text 0 1 [] [(o, 0)] [o] [] eq_refl Ht)
    as Hrun. simpl in Hrun.
  destruct (for_loop text t 1 [(o, 0)]) as [[d | st] |]; simpl in Hrun;
    try discriminate.
  injection Hrun as Hst.
  destruct st as [|[o' i'] [|? ?]]; try discriminate.
  injection Hst as ->.
  pose proof (body_closer_pop text (1 + List.length t) c [] o i' Hc) as Hb.
  rewrite Hp, Ascii.eqb_refl in Hb. simpl in Hb. simpl.
  match goal with
  | |- context [body ?a ?b ?x ?st] =>
      replace (body a b x st) with (Some (Next (@nil Frame)))
        by (symmetry; exact Hb)
  end.
  reflexivity.
Qed.

Lemma count_cons (c x : ascii) (s : Py.str) :
  Py.count c (x :: s) = (if Ascii.eqb c x then 1 else 0) + Py.count c s.
Proof. unfold Py.count. simpl. now destruct (Ascii.eqb c x). Qed.

Lemma count_snoc (c x : ascii) (s : Py.str) :
  Py.count c (s ++ [x]) = Py.count c s + (if Ascii.eqb c x then 1 else 0).
Proof.
  unfold Py.count. rewrite filter_app, length_app. simpl.
  now destruct (Ascii.eqb c x).
Qed.

Lemma for_loop_counts (c o : ascii) (t items : Py.str) :
  In (c, o) [(")"%char, "("%char); ("}"%char, "{"%char);
             ("]"%char, "["%char)] ->
  forall (i : nat) (st st' : list Frame),
  for_loop t items i st = Some (Next st') ->
  Py.count o (map fst st') + Py.count c items
  = Py.count o (map fst st) + Py.count o items.
Proof.
  intros Hpair.
  induction items as [|x items IH]; intros i st st' Hrun; simpl in Hrun.
  - injection Hrun as <-. reflexivity.
  - rewrite !count_cons.
    destruct (Py.contains openers x) eqn:Ho.
    + rewrite body_opener in Hrun by assumption.
      apply IH in Hrun. rewrite map_app in Hrun. simpl in Hrun.
      rewrite count_snoc in Hrun.
      assert (Ascii.eqb c x = false) as ->;
        [|unfold Frame in *; destruct (Ascii.eqb o x); lia].
      apply contains_openers in Ho. simpl in Hpair.
      destruct Hpair as [[= <- <-] | [[= <- <-] | [[= <- <-] | []]]];
        destruct Ho as [-> | [-> | ->]]; reflexivity.
    + destruct (Py.contains closers x) eqn:Hc.
      * destruct (snoc_cases st) as [-> | (s & [o1 i1] & ->)].
        { rewrite body_closer_empty in Hrun by assumption. discriminate. }
        rewrite body_closer_pop in Hrun by assumption.
        destruct (Py.dict_get pairs x) as [e|] eqn:Ep; simpl in Hrun;
          [|discriminate].
        destruct (Ascii.eqb e o1) eqn:Ee; simpl in Hrun; [|discriminate].
        apply Ascii.eqb_eq in Ee. subst e.
        apply IH in Hrun. rewrite map_app. simpl. rewrite count_snoc.
        assert (Hk : (if Ascii.eqb c x then 1 else 0)
                     = (if Ascii.eqb o o1 then 1 else 0)
                     /\ Ascii.eqb o x = false).
        { apply contains_closers in Hc. simpl in Hpair.
          destruct Hpair as [[= <- <-] | [[= <- <-] | [[= <- <-] | []]]];
            destruct Hc as [-> | [-> | ->]];
            simpl in Ep; injection Ep as <-; split; reflexivity. }
        destruct Hk as [-> ->]. unfold Frame in *.
        destruct (Ascii.eqb o o1); lia.
      * rewrite body_other in Hrun by assumption.
        apply IH in Hrun.
        assert (Hk : Ascii.eqb c x = false /\ Ascii.eqb o x = false).
        { split.
          - destruct (Ascii.eqb c x) eqn:E; [|reflexivity].
            apply Ascii.eqb_eq in E. subst x. simpl in Hpair.
            destruct Hpair as [[= <- <-] | [[= <- <-] | [[= <- <-] | []]]];
              discriminate.
          - destruct (Ascii.eqb o x) eqn:E; [|reflexivity].
            apply Ascii.eqb_eq in E. subst x. simpl in Hpair.
            destruct Hpair as [[= <- <-] | [[= <- <-] | [[= <- <-] | []]]];
              discriminate. }
        destruct Hk as [-> ->]. unfold Frame in *. lia.
Qed.

(** X7.  A text reported [Balanced] has, for each of the three bracket kinds, as
    many openers as closers. *)
Theorem balanced_counts (text : Py.str) (c o : ascii) :
  check_balance text = Some Balanced ->
  In (c, o) [(")"%char, "("%char); ("}"%char, "{"%char);
             ("]"%char, "["%char)] ->
  Py.count o text = Py.count c text.
Proof.
  intros H Hpair. apply check_balance_balanced_iff, open_chars_nil in H.
  pose proof (for_loop_counts c o text text Hpair 0 [] [] H) as Hc.
  simpl in Hc. unfold Py.count in *. simpl in Hc. lia.
Qed.

Lemma balanced_counts_witness :
  Py.count "("%char (Py.lit "f(a[1]){ g() }")
  = Py.count ")"%char (Py.lit "f(a[1]){ g() }").
Proof.
  exact (balanced_counts (Py.lit "f(a[1]){ g() }") ")"%char "("%char
           eq_refl (or_introl eq_refl)).
Defined.

Lemma well_nested_app (a b : Py.str) :
  well_nested a -> well_nested b -> well_nested (a ++ b).
Proof.
  intros Ha Hb. induction Ha as [|x t Hx _ IH | c o a1 a2 Hp Ha1 _ _ IH2].
  - assumption.
  - simpl. now constructor.
  - simpl. rewrite <- app_assoc. simpl. apply wn_pair; auto.
Qed.

Lemma closes_rev_prepend
    (w : Py.str) (opens_rev : list ascii) (items : Py.str) :
  well_nested w -> closes_rev opens_rev items ->
  closes_rev opens_rev (w ++ items).
Proof.
  intros Hw. destruct opens_rev as [|o below]; simpl.
  - now apply well_nested_app.
  - intros (a & c & rest & -> & Ha & Hp & Hrest).
    exists (w ++ a), c, rest.
    split; [now rewrite app_assoc|].
    split; [now apply well_nested_app|]. auto.
Qed.

Lemma pair_of_closer (x o : ascii) :
  Py.contains closers x = true -> Py.dict_get pairs x = Some o ->
  In (x, o) bracket_pairs.
Proof.
  intros Hc Hp. apply contains_closers in Hc.
  destruct Hc as [-> | [-> | ->]]; simpl in Hp; injection Hp as <-;
    simpl; auto.
Qed.

Lemma for_loop_closes (t items : Py.str) :
  forall (i : nat) (st : list Frame),
  open_chars (for_loop t items i st) = Some [] ->
  closes_rev (rev (map fst st)) items.
Proof.
  induction items as [|x items IH]; intros i st Hrun; simpl in Hrun.
  - injection Hrun as Hst. unfold Frame in *. rewrite Hst. constructor.
  - destruct (Py.contains openers x) eqn:Ho.
    + rewrite body_opener in Hrun by assumption.
      apply IH in Hrun. rewrite map_app, rev_app_distr in Hrun.
      simpl in Hrun. destruct Hrun as (a & c & rest & -> & Ha & Hp & Hrest).
      replace (x :: a ++ c :: rest) with ((x :: a ++ c :: []) ++ rest)
        by (simpl; rewrite <- app_assoc; reflexivity).
      apply closes_rev_prepend; [|assumption].
      apply wn_pair; auto. constructor.
    + destruct (Py.contains closers x) eqn:Hc.
      * destruct (snoc_cases st) as [-> | (s & [o1 i1] & ->)].
        { rewrite body_closer_empty in Hrun by assumption. discriminate. }
        rewrite body_closer_pop in Hrun by assumption.
        destruct (Py.dict_get pairs x) as [e|] eqn:Ep; simpl in Hrun;
          [|discriminate].
        destruct (Ascii.eqb e o1) eqn:Ee; simpl in Hrun; [|discriminate].
        apply Ascii.eqb_eq in Ee. subst e.
        apply IH in Hrun. rewrite map_app, rev_app_distr. simpl.
        exists [], x, items. repeat split; auto.
        -- constructor.
        -- now apply pair_of_closer.
      * rewrite body_other in Hrun by assumption.
        apply IH in Hrun.
        apply (closes_rev_prepend [x]); [|assumption].
        constructor; [|constructor].
        unfold is_delimiter. now rewrite Ho, Hc.
Qed.

(** X1.  The matcher decides well-nestedness: [check_balance] reports
    [Balanced] exactly for the texts whose round, curly and square brackets
    come in matching, properly nested pairs, whatever other characters
    (angle brackets included) stand around them. *)
Theorem balanced_iff_well_nested (text : Py.str) :
  check_balance text = Some Balanced <-> well_nested text.
Proof.
  split.
  - intros H. apply check_balance_balanced_iff in H.
    apply (for_loop_closes text text 0 []) in H. exact H.
  - intros H. induction H as [|x t Hx _ IH | c o a b Hp _ IHa _ IHb].
    + reflexivity.
    + assert (Hf : filter is_delimiter (x :: t) = filter is_delimiter t)
        by (simpl; now rewrite Hx).
      apply (proj2 (balanced_same_delimiters (x :: t) t Hf) IH).
    + replace (o :: a ++ c :: b) with ((o :: a ++ [c]) ++ b)
        by (simpl; rewrite <- app_assoc; reflexivity).
      apply (proj2 (balanced_concat (o :: a ++ [c]) b
                      (balanced_wrap a o c Hp IHa)) IHb).
Qed.

(** ** The remover *)

Lemma next_is_false (text : Py.str) (s : State) (c : ascii) :
  (0 <= i s)%Z ->
  next_is text s c = Some false ->
  match nth_error text (S (Z.to_nat (i s))) with
  | Some n => Ascii.eqb n c = false
  | None => True
  end.
Proof.
  intros Hi. unfold next_is.
  destruct (i s + 1 <? Z.of_nat (List.length text))%Z eqn:E.
  - rewrite getitem_nat by lia.
    replace (Z.to_nat (i s + 1)) with (S (Z.to_nat (i s))) by lia.
    destruct (nth_error text (S (Z.to_nat (i s)))); [|trivial].
    now intros [= ->].
  - intros _.
    destruct (nth_error text (S (Z.to_nat (i s)))) eqn:En; [|trivial].
    assert (S (Z.to_nat (i s)) < List.length text)
      by (apply nth_error_Some; congruence).
    lia.
Qed.

(** The iterations that pass a character through. *)
Lemma loop_body_code (text : Py.str) (s s' : State) :
  (0 <= i s < Z.of_nat (List.length text))%Z ->
  loop_body text s = Some s' ->
  tag_of_step s s' = Code ->
  exists char,
    nth_error text (Z.to_nat (i s)) = Some char
    /\ i s' = (i s + 1)%Z
    /\ is_quote char = false
    /\ opens_comment char (nth_error text (S (Z.to_nat (i s)))) = false.
Proof.
  intros Hi Hb Htag.
  destruct (getitem_in_range text (i s) Hi) as [char Hchar].
  exists char. split; [assumption|].
  revert Hb Htag. unfold loop_body, tag_of_step, mode.
  rewrite getitem_nat, Hchar by lia.
  destruct (in_string s) eqn:Es.
  { destruct (is_string_char s char);
      [destruct (Py.getitem text (i s - 1)) as [prev|];
       [destruct (negb (Ascii.eqb prev Py.backslash))|]|];
      simpl; intros; discriminate. }
  destruct (in_comment s) eqn:Ec.
  { destruct (Ascii.eqb char Py.newline); simpl; intros; discriminate. }
  destruct (in_block_comment s) eqn:Eb.
  { destruct (Ascii.eqb char Py.star);
      [destruct (next_is text s Py.slash) as [[|]|]|];
      simpl; intros; discriminate. }
  fold (is_quote char).
  destruct (is_quote char) eqn:Eq.
  { simpl. intros [= <-]. simpl. discriminate. }
  unfold opens_comment.
  destruct (Ascii.eqb char Py.slash) eqn:Esl.
  - destruct (next_is text s Py.slash) as [[|]|] eqn:E1; cbv beta iota;
      try discriminate.
    { intros [= <-]. simpl. rewrite Es. discriminate. }
    destruct (next_is text s Py.star) as [[|]|] eqn:E2; cbv beta iota;
      try discriminate.
    { intros [= <-]. simpl. rewrite Es, Ec. discriminate. }
    intros [= <-] _.
    apply next_is_false in E1; [|lia]. apply next_is_false in E2; [|lia].
    split; [reflexivity|]. split; [reflexivity|].
    destruct (nth_error text (S (Z.to_nat (i s)))); [|reflexivity].
    rewrite E1, E2. reflexivity.
  - simpl. intros [= <-] _. repeat split.
Qed.

Lemma code_ok_not_code (t : Tag) (k : nat) :
  t <> Code ->
  forall (tags : list Tag) (text : Py.str),
  code_ok tags (skipn k text) -> code_ok (repeat t k ++ tags) text.
Proof.
  intros Ht. induction k as [|k IH]; intros tags text H; simpl in *.
  - exact H.
  - destruct text as [|c rest]; [trivial|].
    split; [congruence|]. now apply IH.
Qed.

Lemma classify_loop_code_ok (text : Py.str) :
  forall (fuel : nat) (s : State) (tags : list Tag),
  reach_inv text s ->
  classify_loop fuel text s = Some tags ->
  code_ok tags (skipn (Z.to_nat (i s)) text).
Proof.
  induction fuel as [|fuel IH]; intros s tags Hinv; simpl;
    destruct (i s <? Z.of_nat (List.length text))%Z eqn:E;
    try discriminate; try (intros [= <-]; exact I).
  assert (Hlt : (i s < Z.of_nat (List.length text))%Z) by lia.
  destruct (loop_body_spec text s Hinv Hlt)
    as (s' & k & Hb & Hk & Hi & _ & _ & _).
  destruct (loop_body_inv text s s' Hinv Hlt Hb) as [Hinv' _].
  rewrite Hb.
  destruct (classify_loop fuel text s') as [tags'|] eqn:Hc; [|discriminate].
  intros [= <-]. specialize (IH s' tags' Hinv' Hc).
  destruct Hinv as [Hi0 _].
  assert (Z.to_nat (i s' - i s) = k) as -> by lia.
  assert (Hdec : tag_of_step s s' = Code \/ tag_of_step s s' <> Code)
    by (destruct (tag_of_step s s'); auto; right; discriminate).
  destruct Hdec as [Ht | Ht].
  - destruct (loop_body_code text s s' ltac:(lia) Hb Ht)
      as (char & Hchar & Hi' & Hq & Hoc).
    assert (k = 1) as -> by lia. rewrite Ht. simpl.
    rewrite (skipn_nth_error text _ _ Hchar).
    rewrite hd_error_skipn.
    replace (Z.to_nat (i s')) with (S (Z.to_nat (i s))) in IH by lia.
    auto.
  - apply code_ok_not_code; [assumption|].
    rewrite skipn_skipn.
    replace (k + Z.to_nat (i s)) with (Z.to_nat (i s')) by lia.
    exact IH.
Qed.

Lemma opens_comment_blank (c m : ascii) :
  m = Py.space \/ m = Py.newline -> opens_comment c (Some m) = false.
Proof.
  intros [-> | ->]; unfold opens_comment; simpl; apply andb_false_r.
Qed.

Lemma mask_plain (tags : list Tag) :
  forall (text : Py.str), code_ok tags text -> plain (mask tags text) = true.
Proof.
  induction tags as [|t tags IH]; intros [|c rest] H; simpl in *; auto.
  destruct H as [Hcode Hrest]. rewrite (IH rest Hrest), andb_true_r.
  apply andb_true_iff. split; apply negb_true_iff.
  - destruct t; simpl; auto. now apply Hcode.
    destruct (Ascii.eqb c Py.newline) eqn:E; [|reflexivity].
    apply Ascii.eqb_eq in E. now subst.
  - assert (Hdec : t = Code \/ t <> Code)
      by (destruct t; auto; right; discriminate).
    destruct Hdec as [-> | Ht].
    + destruct (Hcode eq_refl) as [_ Hoc]. simpl.
      destruct tags as [|t' tags], rest as [|n rest']; simpl in *;
        try (unfold opens_comment; apply andb_false_r).
      assert (Hdec : t' = Code \/ t' <> Code)
        by (destruct t'; auto; right; discriminate).
      destruct Hdec as [-> | Ht']; [exact Hoc|].
      apply opens_comment_blank. now apply mask_char_not_code.
    + unfold opens_comment.
      destruct (mask_char_not_code t c Ht) as [-> | ->]; reflexivity.
Qed.

Lemma plain_no_quote (text : Py.str) :
  plain text = true -> Forall (fun c => is_quote c = false) text.
Proof.
  induction text as [|c rest IH]; simpl; [constructor|].
  rewrite !andb_true_iff, !negb_true_iff. intros [[Hq _] Hr].
  constructor; auto.
Qed.

Lemma next_is_no_comment (text : Py.str) (s : State) (c : ascii) :
  (0 <= i s)%Z ->
  opens_comment Py.slash (nth_error text (S (Z.to_nat (i s)))) = false ->
  c = Py.slash \/ c = Py.star ->
  next_is text s c = Some false.
Proof.
  intros Hi Hoc Hc.
  destruct (next_is_spec text s c Hi) as ([|] & Hb & Hnext); [|exact Hb].
  destruct Hnext as [_ Hn]; [reflexivity|].
  rewrite Hn in Hoc. destruct Hc as [-> | ->]; discriminate.
Qed.

Lemma loop_body_plain (text : Py.str) (s : State) (char : ascii) :
  mode s = Code ->
  (0 <= i s)%Z ->
  nth_error text (Z.to_nat (i s)) = Some char ->
  is_quote char = false ->
  opens_comment char (nth_error text (S (Z.to_nat (i s)))) = false ->
  loop_body text s = Some (advance (append [char] s)).
Proof.
  intros Hmode Hi Hchar Hq Hoc.
  unfold mode in Hmode.
  destruct (in_string s) eqn:Es; [discriminate|].
  destruct (in_comment s) eqn:Ec; [discriminate|].
  destruct (in_block_comment s) eqn:Eb; [discriminate|].
  unfold loop_body. rewrite getitem_nat, Hchar, Es, Ec, Eb by lia.
  fold (is_quote char). rewrite Hq.
  destruct (Ascii.eqb char Py.slash) eqn:Esl; [|reflexivity].
  apply Ascii.eqb_eq in Esl. subst char.
  rewrite !next_is_no_comment by auto. reflexivity.
Qed.

Lemma while_loop_plain (text : Py.str) :
  forall (fuel : nat) (s : State),
  mode s = Code ->
  (0 <= i s <= Z.of_nat (List.length text))%Z ->
  plain (skipn (Z.to_nat (i s)) text) = true ->
  (Z.of_nat (List.length text) - i s <= Z.of_nat fuel)%Z ->
  exists s_end,
    while_loop fuel text s = Some s_end
    /\ List.concat (output s_end)
       = List.concat (output s) ++ skipn (Z.to_nat (i s)) text.
Proof.
  induction fuel as [|fuel IH]; intros s Hmode Hi Hplain Hfuel; simpl;
    destruct (i s <? Z.of_nat (List.length text))%Z eqn:E; try lia.
  - exists s. split; [reflexivity|].
    rewrite skipn_all2 by lia. now rewrite app_nil_r.
  - destruct (getitem_in_range text (i s)) as [char Hchar]; [lia|].
    rewrite (skipn_nth_error text _ _ Hchar) in *.
    cbn [plain] in Hplain. rewrite hd_error_skipn in Hplain.
    rewrite !andb_true_iff, !negb_true_iff in Hplain.
    destruct Hplain as [[Hq Hoc] Hrest].
    rewrite (loop_body_plain text s char) by (auto; lia).
    destruct (IH (advance (append [char] s))) as (s_end & Hw & Hout).
    + unfold mode in *. exact Hmode.
    + simpl. lia.
    + simpl. replace (Z.to_nat (i s + 1)) with (S (Z.to_nat (i s))) by lia.
      exact Hrest.
    + simpl. lia.
    + exists s_end. split; [exact Hw|]. rewrite Hout. simpl.
      rewrite concat_app. simpl.
      replace (Z.to_nat (i s + 1)) with (S (Z.to_nat (i s))) by lia.
      rewrite <- app_assoc. reflexivity.
  - exists s. split; [reflexivity|].
    rewrite skipn_all2 by lia. now rewrite app_nil_r.
Qed.

(** X12.  A text with no quote character and no [//] or [/*] is returned as it
    is. *)
Theorem remove_plain_unchanged (text : Py.str) :
  plain text = true ->
  remove_comments_and_strings text = Some text.
Proof.
  intros H.
  destruct (while_loop_plain text (List.length text) initial)
    as (s_end & Hw & Hout); simpl; auto; try lia.
  unfold remove_comments_and_strings. rewrite Hw. simpl in Hout.
  now rewrite Hout.
Qed.

Lemma remove_plain_unchanged_witness :
  remove_comments_and_strings (Py.lit "a / b * (c[0]) < d")
  = Some (Py.lit "a / b * (c[0]) < d").
Proof.
  exact (remove_plain_unchanged (Py.lit "a / b * (c[0]) < d") eq_refl).
Defined.

(** X11.  The output of the remover holds no quote character and no comment
    opener ([//] or [/*]): nothing is left in it that the remover would
    mask. *)
Theorem remove_output_plain (text : Py.str) :
  exists masked,
    remove_comments_and_strings text = Some masked
    /\ plain masked = true
    /\ Forall (fun c => is_quote c = false) masked.
Proof.
  destruct (remove_is_mask text) as (tags & Hcl & Hlen & Hrem).
  exists (mask tags text). split; [assumption|].
  assert (Hp : plain (mask tags text) = true).
  { apply mask_plain.
    apply (classify_loop_code_ok text (List.length text) initial tags
             (reach_inv_initial text) Hcl). }
  split; [assumption | now apply plain_no_quote].
Qed.

(** X13.  The remover is idempotent: applied to its own output it returns that
    output unchanged. *)
Theorem remove_idempotent (text masked : Py.str) :
  remove_comments_and_strings text = Some masked ->
  remove_comments_and_strings masked = Some masked.
Proof.
  intros H.
  destruct (remove_is_mask text) as (tags & Hcl & Hlen & Hrem).
  rewrite Hrem in H. injection H as <-.
  assert (Hp : plain (mask tags text) = true).
  { apply mask_plain.
    apply (classify_loop_code_ok text (List.length text) initial tags
             (reach_inv_initial text) Hcl). }
  destruct (while_loop_plain (mask tags text)
              (List.length (mask tags text)) initial)
    as (s_end & Hw & Hout); simpl; auto; try lia.
  unfold remove_comments_and_strings. rewrite Hw. simpl in Hout.
  now rewrite Hout.
Qed.

Lemma remove_idempotent_witness :
  remove_comments_and_strings
    (Py.lit "{" ++ repeat Py.space 5 ++ [Py.newline] ++ Py.lit "}")
  = Some (Py.lit "{" ++ repeat Py.space 5 ++ [Py.newline] ++ Py.lit "}").
Proof.
  exact (remove_idempotent Examples.comment_line
           (Py.lit "{" ++ repeat Py.space 5 ++ [Py.newline] ++ Py.lit "}")
           eq_refl).
Defined.

(** X10.  The remover only blanks: each character of its output is a space or
    the character the text has at the same position. *)
Theorem remove_only_blanks (text : Py.str) :
  exists masked,
    remove_comments_and_strings text = Some masked
    /\ forall p m, nth_error masked p = Some m ->
         m = Py.space \/ nth_error text p = Some m.
Proof.
  destruct (remove_is_mask text) as (tags & Hcl & Hlen & Hrem).
  exists (mask tags text). split; [assumption|].
  intros p m Hm.
  assert (Hp : p < List.length (mask tags text))
    by (apply nth_error_Some; congruence).
  rewrite mask_length in Hp by assumption.
  destruct (nth_error tags p) as [t|] eqn:Et;
    [|apply nth_error_None in Et; lia].
  destruct (nth_error text p) as [c|] eqn:Ec;
    [|apply nth_error_None in Ec; lia].
  rewrite (mask_nth tags text p t c Et Ec) in Hm. injection Hm as <-.
  destruct t; simpl; auto.
  destruct (Ascii.eqb c Py.newline); auto.
Qed.

(** ** The messages and the script *)

Lemma str_of_nat_inj (a b : nat) :
  Py.str_of_nat a = Py.str_of_nat b -> a = b.
Proof.
  unfold Py.str_of_nat, Py.lit. intros H.
  apply (f_equal string_of_list_ascii) in H.
  rewrite !string_of_list_ascii_of_string in H.
  apply (f_equal NilEmpty.uint_of_string) in H.
  rewrite !NilEmpty.usu in H. injection H as H.
  apply (f_equal Nat.of_uint) in H.
  now rewrite !DecimalNat.Unsigned.of_to in H.
Qed.

Lemma uint_digits (d : Decimal.uint) :
  forallb is_digit (Py.lit (NilEmpty.string_of_uint d)) = true.
Proof. induction d; simpl; auto. Qed.

Lemma str_of_nat_digits (n : nat) : forallb is_digit (Py.str_of_nat n) = true.
Proof. apply uint_digits. Qed.

Lemma digits_split (sep : ascii) (d1 : Py.str) :
  is_digit sep = false ->
  forall d2 r1 r2,
  forallb is_digit d1 = true -> forallb is_digit d2 = true ->
  d1 ++ sep :: r1 = d2 ++ sep :: r2 ->
  d1 = d2 /\ r1 = r2.
Proof.
  intros Hsep. induction d1 as [|x d1 IH]; intros [|y d2] r1 r2 H1 H2 H;
    simpl in *.
  - injection H as ->. auto.
  - injection H as <- _. apply andb_true_iff in H2. destruct H2. congruence.
  - injection H as -> _. apply andb_true_iff in H1. destruct H1. congruence.
  - injection H as -> H. apply andb_true_iff in H1, H2.
    destruct H1, H2. destruct (IH d2 r1 r2) as [-> ->]; auto.
Qed.

(** X14.  The messages of [check_balance] are unambiguous: two diagnostics with
    the same message are the same diagnostic (kind, characters, line and
    positions). *)
Theorem render_injective (d1 d2 : Diagnostic) :
  render d1 = render d2 -> d1 = d2.
Proof.
  assert (Hcomma : is_digit ","%char = false) by reflexivity.
  assert (Hspace : is_digit " "%char = false) by reflexivity.
  assert (Hparen : is_digit ")"%char = false) by reflexivity.
  destruct d1 as [|c1 l1 i1|c1 l1 o1 i1|o1 l1];
    destruct d2 as [|c2 l2 i2|c2 l2 o2 i2|o2 l2];
    unfold render; intros H;
    try (cbn [Py.lit list_ascii_of_string app] in H; discriminate H);
    try reflexivity.
  - cbn [Py.lit list_ascii_of_string app] in H. injection H as -> H.
    apply digits_split in H; auto using str_of_nat_digits.
    destruct H as [Hl Hi]. injection Hi as Hi.
    apply str_of_nat_inj in Hl, Hi. congruence.
  - cbn [Py.lit list_ascii_of_string app] in H. injection H as -> H.
    apply digits_split in H; auto using str_of_nat_digits.
    destruct H as [Hl H]. injection H as -> H.
    apply digits_split in H; auto using str_of_nat_digits.
    destruct H as [Hi _].
    apply str_of_nat_inj in Hl, Hi. congruence.
  - cbn [Py.lit list_ascii_of_string app] in H. injection H as -> H.
    apply str_of_nat_inj in H. congruence.
Qed.

Lemma render_injective_witness :
  UnmatchedClosing ")"%char 1 2 = UnmatchedClosing ")"%char 1 2.
Proof.
  exact (render_injective (UnmatchedClosing ")"%char 1 2)
           (UnmatchedClosing ")"%char 1 2) eq_refl).
Defined.

(** X15.  Whatever lines it is given, the script prints three values: the
    message of the diagnostic of the joined lines, the heading, and a tail
    that is a suffix of the scanned text, namely the whole text when there
    are at most ten lines and the last ten lines joined otherwise. *)
Theorem script_prints_verdict_and_tail (lines : list Py.str) :
  exists d tail,
    check_balance (List.concat lines) = Some d
    /\ script lines = Some [render d; Py.lit "Last lines:"; tail]
    /\ (exists before, List.concat lines = before ++ tail)
    /\ (List.length lines <= 10 -> tail = List.concat lines)
    /\ (10 <= List.length lines ->
        exists last_ten, List.length last_ten = 10
          /\ tail = List.concat last_ten
          /\ exists first_lines, lines = first_lines ++ last_ten).
Proof.
  destruct (check_balance_total (List.concat lines)) as [d Hd].
  exists d, (List.concat (slice_from lines (-10))).
  split; [assumption|]. split.
  { unfold script, report. now rewrite Hd. }
  unfold slice_from. simpl.
  set (k := Z.to_nat (Z.max 0 (Z.of_nat (List.length lines) + -10))).
  split; [|split].
  - exists (List.concat (firstn k lines)).
    rewrite <- concat_app, firstn_skipn. reflexivity.
  - intros Hle. assert (k = 0) as -> by (unfold k; lia). reflexivity.
  - intros Hge. exists (skipn k lines).
    split; [rewrite length_skipn; unfold k; lia|].
    split; [reflexivity|].
    exists (firstn k lines). now rewrite firstn_skipn.
Qed.
